(** * build_standalone_validator.py: an executable model and its properties

    The script is straight-line orchestration over the outside world: it
    prints, probes the filesystem, imports two libraries, shells out to pip,
    calls PyInstaller and runs the produced binary.  The model threads a
    [World] (filesystem, importable modules, trace of external actions)
    through a small monad whose computations return, raise or exit.
    Everything the script cannot decide by itself (the platform strings, the
    standard-output encoding, what pip, PyInstaller and the built binary do)
    is a field of a [Host]. *)

From Stdlib Require Import String Ascii Decimal DecimalString.
From Stdlib Require Import NArith ZArith Bool Lia List.
Import ListNotations.

Set Implicit Arguments.

(* ===================================================================== *)
(** ** Python strings *)
(* ===================================================================== *)

(** A Python [str] is a sequence of Unicode code points. *)
Definition pystr := list N.

(** ASCII literals of the source. *)
Definition lit (s : string) : pystr :=
  map N_of_ascii (list_ascii_of_string s).

Definition nl : pystr := [10%N].
Definition check_mark : pystr := [10003%N].   (* U+2713 *)
Definition cross_mark : pystr := [10007%N].   (* U+2717 *)

Fixpoint str_eqb (a b : pystr) : bool :=
  match a, b with
  | [], [] => true
  | x :: a', y :: b' => N.eqb x y && str_eqb a' b'
  | _, _ => false
  end.

Fixpoint startswith (p s : pystr) : bool :=
  match p, s with
  | [], _ => true
  | x :: p', y :: s' => N.eqb x y && startswith p' s'
  | _ :: _, [] => false
  end.

(** [s * n] *)
Definition str_mul (s : pystr) (n : nat) : pystr := concat (repeat s n).

(** [str.replace(old, new)]: leftmost non-overlapping occurrences.  [skip]
    counts the characters of a matched occurrence still to be dropped. *)
Fixpoint replace_from (old new : pystr) (skip : nat) (s : pystr) : pystr :=
  match s with
  | [] => []
  | c :: s' =>
      match skip with
      | S k => replace_from old new k s'
      | O =>
          if startswith old s
          then new ++ replace_from old new (length old - 1) s'
          else c :: replace_from old new 0 s'
      end
  end.

Definition py_replace (s old new : pystr) : pystr :=
  match old with
  | [] => new ++ flat_map (fun c => c :: new) s
  | _ :: _ => replace_from old new 0 s
  end.

(** [s.encode('ascii', 'replace').decode('ascii')]: every code point outside
    ASCII becomes a question mark. *)
Definition is_ascii (c : N) : bool := (c <? 128)%N.

Definition ascii_replace (s : pystr) : pystr :=
  map (fun c => if is_ascii c then c else 63%N) s.

(** The characters [str.split()] takes for whitespace ([str.isspace]). *)
Definition is_space (c : N) : bool :=
  (((9 <=? c) && (c <=? 13)) || ((28 <=? c) && (c <=? 32))
   || N.eqb c 133 || N.eqb c 160 || N.eqb c 5760
   || ((8192 <=? c) && (c <=? 8202))
   || N.eqb c 8232 || N.eqb c 8233 || N.eqb c 8239 || N.eqb c 8287
   || N.eqb c 12288)%N.

Fixpoint split_ws (cur : pystr) (s : pystr) : list pystr :=
  match s with
  | [] => match cur with [] => [] | _ => [rev cur] end
  | c :: s' =>
      if is_space c
      then match cur with
           | [] => split_ws [] s'
           | _ => rev cur :: split_ws [] s'
           end
      else split_ws (c :: cur) s'
  end.

Definition py_split (s : pystr) : list pystr := split_ws [] s.

(** Decimal rendering of a natural number, as [str(int)] does. *)
Definition str_of_N (n : N) : pystr :=
  lit (NilEmpty.string_of_uint (N.to_uint n)).

(** [f"{size / (1024 * 1024):.1f}"] for a file size in bytes.  For sizes
    below 2^53 the quotient by 2^20 is an exact double, and the format rounds
    the exact value to one decimal, ties to even. *)
Definition tenths_of_mb (size : N) : N :=
  let scaled := (size * 10)%N in
  let q := (scaled / 1048576)%N in
  let r := (scaled mod 1048576)%N in
  if (r <? 524288)%N then q
  else if (524288 <? r)%N then (q + 1)%N
  else if N.even q then q else (q + 1)%N.

Definition fmt_mb (size : N) : pystr :=
  let t := tenths_of_mb size in
  str_of_N (t / 10) ++ lit "." ++ str_of_N (t mod 10).

(* ===================================================================== *)
(** ** The world *)
(* ===================================================================== *)

(** Whether an entry can be deleted: at once, only after its read-only
    attribute has been cleared ([os.chmod(path, stat.S_IWRITE)]), or not at
    all (held open by another process, or protected by its parent). *)
Inductive perm := Writable | ReadOnly | Locked.

#[warnings="-register-all"]
Inductive node :=
| File (p : perm) (size : N)
| Dir (p : perm) (entries : list (pystr * node)).

Definition dirents := list (pystr * node).

Record Env := mkEnv {
  fs : dirents;                      (* the working directory *)
  modules : list (pystr * pystr);    (* importable module, its __version__ *)
}.

Inductive exn_kind :=
| UnicodeEncodeError | ImportError | IndexError | OSError | OtherException.

(** A raised exception: its class and [str(e)]. *)
Record exn := mkExn { kind : exn_kind; message : pystr }.

Inductive event :=
| EPrint (line : pystr)
| EImport (name : pystr)
| ESystem (cmd : pystr)
| ESleep
| ERmtree (dir_name : pystr)
| EUnlink (file : pystr)
| EPyInstaller (args : list pystr).

Record World := mkWorld {
  env : Env;
  trace : list event;                (* oldest first *)
}.

(** How a call ends.  [Exit] is [SystemExit]: it is not an [Exception], so
    [except Exception] lets it through. *)
Inductive outcome (A : Type) :=
| Ret (a : A)
| Raise (e : exn)
| Exit (code : Z).
Arguments Ret {A} a.
Arguments Raise {A} e.
Arguments Exit {A} code.

Definition M (A : Type) := World -> outcome A * World.

Definition ret {A} (a : A) : M A := fun w => (Ret a, w).

Definition bind {A B} (m : M A) (k : A -> M B) : M B :=
  fun w =>
    match m w with
    | (Ret a, w') => k a w'
    | (Raise e, w') => (Raise e, w')
    | (Exit c, w') => (Exit c, w')
    end.

Definition raise {A} (e : exn) : M A := fun w => (Raise e, w).
Definition sys_exit {A} (c : Z) : M A := fun w => (Exit c, w).

(** [try: body  except <classes accepted by sel> as e: handler e] *)
Definition try_except {A} (body : M A) (sel : exn_kind -> bool)
           (handler : exn -> M A) : M A :=
  fun w =>
    match body w with
    | (Raise e, w') => if sel (kind e) then handler e w' else (Raise e, w')
    | r => r
    end.

Definition any_exception (_ : exn_kind) : bool := true.
Definition is_unicode_encode_error (k : exn_kind) : bool :=
  match k with UnicodeEncodeError => true | _ => false end.
Definition is_import_error (k : exn_kind) : bool :=
  match k with ImportError => true | _ => false end.

Declare Scope py_scope.
Delimit Scope py_scope with py.
Notation "x <- m ;; k" := (bind m (fun x => k))
  (at level 61, m at next level, right associativity) : py_scope.
Notation "m ;; k" := (bind m (fun _ => k))
  (at level 61, right associativity) : py_scope.
Open Scope py_scope.

Definition logw (e : event) (w : World) : World :=
  mkWorld (env w) (trace w ++ [e]).

Definition log (e : event) : M unit := fun w => (Ret tt, logw e w).

Definition get_env : M Env := fun w => (Ret (env w), w).
Definition put_env (e : Env) : M unit := fun w => (Ret tt, mkWorld e (trace w)).


Definition is_print (e : event) : bool :=
  match e with EPrint _ => true | _ => false end.

(* ===================================================================== *)
(** ** Filesystem primitives *)
(* ===================================================================== *)

Inductive oserror := EACCES | EISDIR | ENOTDIR | ENOTEMPTY | ENOENT.

(** The functions [shutil.rmtree] reports to its error handler. *)
Inductive osfunc :=
| os_rmdir | os_remove | os_unlink | os_scandir | os_open | os_lstat
| os_path_islink.

Definition osfunc_eqb (f g : osfunc) : bool :=
  match f, g with
  | os_rmdir, os_rmdir | os_remove, os_remove | os_unlink, os_unlink
  | os_scandir, os_scandir | os_open, os_open | os_lstat, os_lstat
  | os_path_islink, os_path_islink => true
  | _, _ => false
  end.

Fixpoint lookup (name : pystr) (es : dirents) : option node :=
  match es with
  | [] => None
  | (k, n) :: rest => if str_eqb k name then Some n else lookup name rest
  end.

(** Put what is now at [name] (nothing, when it was deleted) in its place. *)
Fixpoint store (name : pystr) (t : option node) (es : dirents) : dirents :=
  match es with
  | [] => []
  | (k, n) :: rest =>
      if str_eqb k name
      then match t with Some n' => (k, n') :: rest | None => rest end
      else (k, n) :: store name t rest
  end.

Definition keep (name : pystr) (t : option node) (rest : dirents) : dirents :=
  match t with Some n => (name, n) :: rest | None => rest end.

(** [Path("a") / "b"] looked up from the working directory. *)
Definition lookup2 (d name : pystr) (es : dirents) : option node :=
  match lookup d es with
  | Some (Dir _ sub) => lookup name sub
  | _ => None
  end.

(** A system call on what is at a path: the new content of the path, or the
    error. *)
Definition syscall := option node -> option node + oserror.

Definition do_unlink : syscall := fun t =>
  match t with
  | None => inr ENOENT
  | Some (Dir _ _) => inr EISDIR
  | Some (File Writable _) => inl None
  | Some (File _ _) => inr EACCES
  end.

Definition do_rmdir : syscall := fun t =>
  match t with
  | None => inr ENOENT
  | Some (File _ _) => inr ENOTDIR
  | Some (Dir _ (_ :: _)) => inr ENOTEMPTY
  | Some (Dir Writable []) => inl None
  | Some (Dir _ []) => inr EACCES
  end.

(** [os.chmod(path, stat.S_IWRITE)] clears the read-only attribute. *)
Definition clear_readonly (p : perm) : perm :=
  match p with ReadOnly => Writable | _ => p end.

Definition do_chmod_write : syscall := fun t =>
  match t with
  | None => inr ENOENT
  | Some (File p s) => inl (Some (File (clear_readonly p) s))
  | Some (Dir p es) => inl (Some (Dir (clear_readonly p) es))
  end.

Definition call (f : osfunc) : syscall :=
  match f with
  | os_rmdir => do_rmdir
  | os_remove | os_unlink => do_unlink
  | _ => fun t => inl t
  end.

(** An [onerror] handler: given the failed function and what is at the path,
    it leaves the path in a new state and may raise. *)
Definition onerror_t := osfunc -> option node -> option node * option exn.

Definition rmdir_or (onerror : onerror_t) (t : option node)
  : option node * option exn :=
  match do_rmdir t with
  | inl t' => (t', None)
  | inr _ => onerror os_rmdir t
  end.

(** [shutil.rmtree(path, onerror=...)] on the tree at [path]: children first
    (directories recursively, anything else by [os.unlink]), then
    [os.rmdir(path)]; each failing call goes to [onerror], and the walk goes
    on unless the handler raises.  On something that is not a directory
    [os.scandir] fails, then [os.rmdir] is tried all the same.

    [each_child] is the loop over the entries of one directory, [rm] being
    the recursive call. *)
Fixpoint each_child (rm : node -> option node * option exn)
         (onerror : onerror_t) (es : dirents) : dirents * option exn :=
  match es with
  | [] => ([], None)
  | (name, c) :: rest =>
      let '(c', ex) :=
        match c with
        | Dir _ _ => rm c
        | File _ _ =>
            match do_unlink (Some c) with
            | inl t => (t, None)
            | inr _ => onerror os_unlink (Some c)
            end
        end in
      match ex with
      | Some e => (keep name c' rest, Some e)
      | None =>
          let '(rest', ex') := each_child rm onerror rest in
          (keep name c' rest', ex')
      end
  end.

Fixpoint rmtree_node (onerror : onerror_t) (n : node)
  : option node * option exn :=
  match n with
  | File _ _ =>
      let '(t, ex) := onerror os_scandir (Some n) in
      match ex with
      | Some e => (t, Some e)
      | None => rmdir_or onerror t
      end
  | Dir p es =>
      let '(es', ex) := each_child (rmtree_node onerror) onerror es in
      match ex with
      | Some e => (Some (Dir p es'), Some e)
      | None => rmdir_or onerror (Some (Dir p es'))
      end
  end.



Definition is_dir (n : node) : bool :=
  match n with Dir _ _ => true | File _ _ => false end.

(** [fnmatch] for patterns made of literal characters, [*] and [?]. *)
Fixpoint fnmatch (pat name : pystr) : bool :=
  match pat with
  | [] => match name with [] => true | _ => false end
  | c :: pat' =>
      if N.eqb c 42 (* * *) then
        (fix star (name : pystr) : bool :=
           fnmatch pat' name ||
           match name with [] => false | _ :: name' => star name' end) name
      else
        match name with
        | [] => false
        | d :: name' => (N.eqb c 63 (* ? *) || N.eqb c d) && fnmatch pat' name'
        end
  end.

(** [Path(".").glob(pattern)]: the directory is listed once, the names that
    match are yielded. *)
Definition glob (pattern : pystr) (es : dirents) : list pystr :=
  filter (fnmatch pattern) (map fst es).

Definition st_size_of (dir_size : N) (n : node) : N :=
  match n with File _ s => s | Dir _ _ => dir_size end.

(** The first dotted component of a module name. *)
Fixpoint top_package (name : pystr) : pystr :=
  match name with
  | [] => []
  | c :: r => if N.eqb c 46 then [] else c :: top_package r
  end.

Fixpoint assoc (k : pystr) (l : list (pystr * pystr)) : option pystr :=
  match l with
  | [] => None
  | (k', v) :: r => if str_eqb k' k then Some v else assoc k r
  end.

(* ===================================================================== *)
(** ** The host *)
(* ===================================================================== *)

Record Host := mkHost {
  platform_system : pystr;            (* platform.system() *)
  platform_machine : pystr;           (* platform.machine() *)
  sys_version : pystr;                (* sys.version *)
  sys_executable : pystr;             (* sys.executable *)
  os_sep : pystr;                     (* the separator pathlib joins with *)
  abspath : pystr -> pystr;           (* str(Path(p).absolute()) *)
  dir_st_size : N;                    (* st_size reported for a directory *)
  stdout_encodable : N -> bool;       (* sys.stdout's encoding can encode it *)
  encode_error_text : pystr -> pystr; (* str() of the UnicodeEncodeError *)
  strerror : oserror -> pystr -> pystr; (* str() of an OSError on a path *)
  os_system : pystr -> Env -> Z * Env;  (* a shell command: status, effect *)
  pyinstaller_run : list pystr -> Env -> outcome unit * Env;
}.

(** What every supported host provides: standard output encodes ASCII, and
    [sys.version] starts with the version number. *)
Definition stdout_ascii (h : Host) : Prop :=
  forall c, is_ascii c = true -> stdout_encodable h c = true.

Definition host_ok (h : Host) : Prop :=
  stdout_ascii h /\ py_split (sys_version h) <> [].

(* ===================================================================== *)
(** ** The script *)
(* ===================================================================== *)

Definition dq : pystr := [34%N].
Definition rule (c : string) : pystr := str_mul (lit c) 80.

Definition entry_point : pystr := lit "mth5_validator_standalone.py".

Section Script.

Variable h : Host.

(** [print(message)]: the text is encoded as a whole before anything is
    written. *)
Definition print (message : pystr) : M unit :=
  fun w =>
    if forallb (stdout_encodable h) message
    then log (EPrint message) w
    else (Raise (mkExn UnicodeEncodeError (encode_error_text h message)), w).

Definition safe_print (message : pystr) : M unit :=
  try_except (print message) is_unicode_encode_error
    (fun _ =>
       let message :=
         py_replace (py_replace message check_mark (lit "[OK]"))
                    cross_mark (lit "[X]") in
       print (ascii_replace message)).

(** The line [safe_print] ends up writing. *)
Definition rendered (message : pystr) : pystr :=
  if forallb (stdout_encodable h) message then message
  else ascii_replace
         (py_replace (py_replace message check_mark (lit "[OK]"))
                     cross_mark (lit "[X]")).

(** [import name] followed by reading [name.__version__]. *)
Definition import_module (name : pystr) : M pystr :=
  log (EImport name);;
  e <- get_env;;
  match assoc (top_package name) (modules e) with
  | Some v => ret v
  | None =>
      raise (mkExn ImportError (lit "No module named '" ++ name ++ lit "'"))
  end.

(** [os.system(cmd)] *)
Definition system (cmd : pystr) : M Z :=
  log (ESystem cmd);;
  fun w =>
    let '(status, e') := os_system h cmd (env w) in
    (Ret status, mkWorld e' (trace w)).

Definition pip_install (package : string) : pystr :=
  sys_executable h ++ lit " -m pip install " ++ lit package.

Definition check_dependencies : M bool :=
  safe_print (lit "Checking dependencies...");;
  (* Check h5py *)
  try_except
    (v <- import_module (lit "h5py");;
     safe_print (lit "  [OK] h5py " ++ v))
    is_import_error
    (fun _ =>
       safe_print (lit "  [X] h5py not found - installing...");;
       _ <- system (pip_install "h5py");;
       ret tt);;
  (* Check PyInstaller *)
  try_except
    (v <- import_module (lit "PyInstaller");;
     safe_print (lit "  [OK] PyInstaller " ++ v);;
     ret true)
    is_import_error
    (fun _ =>
       safe_print (lit "  [X] PyInstaller not found - installing...");;
       _ <- system (pip_install "pyinstaller");;
       try_except
         (v <- import_module (lit "PyInstaller");;
          safe_print (lit "  [OK] PyInstaller " ++ v ++ lit " installed");;
          ret true)
         is_import_error
         (fun _ =>
            safe_print (lit "  [X] Failed to install PyInstaller");;
            ret false)).

(** The error handler of [clean_build_dirs]; whatever goes wrong inside it
    is dropped ([except Exception: pass]). *)
Definition handle_remove_readonly : onerror_t := fun func t =>
  if osfunc_eqb func os_rmdir || osfunc_eqb func os_remove
     || osfunc_eqb func os_unlink
  then
    match do_chmod_write t with
    | inr _ => (t, None)
    | inl t1 =>
        match call func t1 with
        | inl t2 => (t2, None)
        | inr _ => (t1, None)
        end
    end
  else (t, None).

Definition path_exists (name : pystr) : M bool :=
  e <- get_env;;
  ret (match lookup name (fs e) with Some _ => true | None => false end).

Definition sleep : M unit := log ESleep.

Definition shutil_rmtree (name : pystr) (onerror : onerror_t) : M unit :=
  log (ERmtree name);;
  e <- get_env;;
  let '(t, ex) :=
    match lookup name (fs e) with
    | None => onerror os_lstat None
    | Some n => rmtree_node onerror n
    end in
  put_env (mkEnv (store name t (fs e)) (modules e));;
  match ex with
  | Some x => raise x
  | None => ret tt
  end.

(** [Path(file).unlink()] *)
Definition unlink (file : pystr) : M unit :=
  log (EUnlink file);;
  e <- get_env;;
  match do_unlink (lookup file (fs e)) with
  | inl t => put_env (mkEnv (store file t (fs e)) (modules e))
  | inr err => raise (mkExn OSError (strerror h err file))
  end.

(** [for x in xs: body x] *)
Fixpoint for_each {A} (xs : list A) (body : A -> M unit) : M unit :=
  match xs with
  | [] => ret tt
  | x :: rest => body x;; for_each rest body
  end.

Definition dirs_to_clean : list pystr := [lit "build"; lit "dist"].
Definition files_to_clean : list pystr := [lit "*.spec"].

(** The body of the loop over [dirs_to_clean]. *)
Definition remove_dir (dir_name : pystr) : M unit :=
  present <- path_exists dir_name;;
  if present then
    try_except
      (sleep;;
       shutil_rmtree dir_name handle_remove_readonly;;
       safe_print (lit "  Removed " ++ dir_name ++ lit "/"))
      any_exception
      (fun e =>
         safe_print (lit "  Warning: Could not fully remove " ++ dir_name
                     ++ lit "/ (" ++ message e ++ lit ")"))
  else ret tt.

(** The body of the loop over the files a pattern matches. *)
Definition remove_file (file : pystr) : M unit :=
  try_except
    (unlink file;;
     safe_print (lit "  Removed " ++ file))
    any_exception
    (fun e =>
       safe_print (lit "  Warning: Could not remove " ++ file
                   ++ lit " (" ++ message e ++ lit ")")).

Definition clean_build_dirs : M unit :=
  safe_print (nl ++ lit "Cleaning previous build artifacts...");;
  for_each dirs_to_clean remove_dir;;
  for_each files_to_clean (fun pattern =>
    e <- get_env;;
    for_each (glob pattern (fs e)) remove_file).

Definition is_windows : bool := str_eqb (platform_system h) (lit "Windows").

(** The argument vector handed to PyInstaller. *)
Definition build_args : list pystr :=
  let exe_name := lit "mth5-validator" in
  let exe_name := if is_windows then exe_name ++ lit ".exe" else exe_name in
  [ lit "mth5_validator_standalone.py";
    lit "--onefile";
    lit "--name=" ++ py_replace exe_name (lit ".exe") [];
    lit "--console";
    lit "--clean";
    lit "--collect-all=h5py";
    lit "--hidden-import=h5py.defs";
    lit "--hidden-import=h5py.utils";
    lit "--hidden-import=h5py._proxy";
    lit "--hidden-import=h5py.h5ac";
    lit "--copy-metadata=h5py";
    lit "--copy-metadata=numpy";
    lit "--exclude-module=matplotlib";
    lit "--exclude-module=scipy";
    lit "--exclude-module=pandas";
    lit "--exclude-module=tkinter";
    lit "--exclude-module=PyQt5";
    lit "--exclude-module=PyQt6";
    lit "--exclude-module=jupyter";
    lit "--exclude-module=IPython";
    lit "--exclude-module=pytest";
    lit "--exclude-module=obspy";
    lit "--exclude-module=mt_metadata";
    lit "--exclude-module=mth5";
    lit "--log-level=WARN" ].

(** [PyInstaller.__main__.run(args)] *)
Definition run_pyinstaller (args : list pystr) : M unit :=
  log (EPyInstaller args);;
  fun w =>
    let '(r, e') := pyinstaller_run h args (env w) in
    (r, mkWorld e' (trace w)).

Definition build_executable : M bool :=
  _ <- import_module (lit "PyInstaller.__main__");;
  let system := platform_system h in
  let exe_name := lit "mth5-validator" in
  let exe_name := if is_windows then exe_name ++ lit ".exe" else exe_name in
  safe_print (nl ++ lit "Building Standalone MTH5 Validator for " ++ system
              ++ lit "...");;
  safe_print (rule "=");;
  let args := build_args in
  safe_print (nl ++ lit "PyInstaller configuration:");;
  safe_print (lit "  Entry point: mth5_validator_standalone.py");;
  safe_print (lit "  Output name: " ++ exe_name);;
  safe_print (lit "  Mode: Single file");;
  safe_print (lit "  Dependencies: h5py only");;
  safe_print (lit "  Platform: " ++ system);;
  try_except
    (run_pyinstaller args;;
     safe_print (nl ++ rule "=");;
     safe_print (lit "[OK] Build completed successfully!");;
     ret true)
    any_exception
    (fun e =>
       safe_print (nl ++ rule "=");;
       safe_print (lit "[X] Build failed: " ++ message e);;
       ret false).

(** The file name of the binary, and [str(Path("dist") / name)]. *)
Definition exe_file : pystr :=
  if is_windows then lit "mth5-validator.exe" else lit "mth5-validator".

Definition exe_path : pystr := lit "dist" ++ os_sep h ++ exe_file.

Definition exe_node (e : Env) : option node :=
  lookup2 (lit "dist") exe_file (fs e).

Definition help_command : pystr := dq ++ exe_path ++ dq ++ lit " --help".

Definition test_executable : M bool :=
  e <- get_env;;
  match exe_node e with
  | None =>
      safe_print (nl ++ lit "[X] Executable not found: " ++ exe_path);;
      ret false
  | Some n =>
      safe_print (nl ++ lit "Testing executable: " ++ exe_path);;
      safe_print (rule "=");;
      (* Get file size *)
      safe_print (lit "  Size: " ++ fmt_mb (st_size_of (dir_st_size h) n)
                  ++ lit " MB");;
      (* Test help command *)
      safe_print (nl ++ lit "  Running: mth5-validator --help");;
      safe_print (rule "-");;
      result <- system help_command;;
      if Z.eqb result 0 then
        safe_print (rule "-");;
        safe_print (lit "[OK] Executable test passed!");;
        ret true
      else
        safe_print (lit "[X] Executable test failed");;
        ret false
  end.

Definition print_summary : M unit :=
  let system := platform_system h in
  let exe_name := exe_file in
  safe_print (nl ++ rule "=");;
  safe_print (lit "BUILD SUMMARY");;
  safe_print (rule "=");;
  e <- get_env;;
  match exe_node e with
  | Some n =>
      safe_print (nl ++ lit "[OK] Standalone executable created: "
                  ++ abspath h exe_path);;
      safe_print (lit "  Size: " ++ fmt_mb (st_size_of (dir_st_size h) n)
                  ++ lit " MB (lightweight - h5py only!)");;
      safe_print (lit "  Platform: " ++ system);;
      safe_print (nl ++ rule "-");;
      safe_print (lit "USAGE");;
      safe_print (rule "-");;
      safe_print (nl ++ lit "  Basic validation:");;
      safe_print (lit "    " ++ exe_path ++ lit " validate data.mth5");;
      safe_print (nl ++ lit "  Verbose output:");;
      safe_print (lit "    " ++ exe_path ++ lit " validate data.mth5 --verbose");;
      safe_print (nl ++ lit "  Check data integrity:");;
      safe_print (lit "    " ++ exe_path
                  ++ lit " validate data.mth5 --check-data");;
      safe_print (nl ++ lit "  JSON output:");;
      safe_print (lit "    " ++ exe_path ++ lit " validate data.mth5 --json");;
      safe_print (nl ++ rule "-");;
      safe_print (lit "ADVANTAGES");;
      safe_print (rule "-");;
      safe_print (nl ++ lit "  + Small size: ~20-30 MB (vs 150+ MB for full mth5)");;
      safe_print (lit "  + Simple dependencies: h5py only");;
      safe_print (lit "  + No scipy/obspy/matplotlib bloat");;
      safe_print (lit "  + Fast startup and execution");;
      safe_print (lit "  + Standalone - no Python install needed");;
      safe_print (nl ++ rule "-");;
      safe_print (lit "DISTRIBUTION");;
      safe_print (rule "-");;
      safe_print (nl ++ lit "  The executable in dist/ can be distributed standalone.");;
      safe_print (lit "  Users do NOT need Python or any dependencies installed.");;
      safe_print (lit "  Copy " ++ exe_name
                  ++ lit " to any system and run it directly.")
  | None =>
      safe_print (nl ++ lit "[X] Build failed - executable not found")
  end;;
  safe_print (nl ++ rule "=").

(** [sys.version.split()[0]] *)
Definition python_version : M pystr :=
  match py_split (sys_version h) with
  | v :: _ => ret v
  | [] => raise (mkExn IndexError (lit "list index out of range"))
  end.

Definition main : M Z :=
  safe_print (rule "=");;
  safe_print (lit "MTH5 Standalone Validator - Executable Builder");;
  safe_print (rule "=");;
  safe_print (nl ++ lit "Platform: " ++ platform_system h ++ lit " "
              ++ platform_machine h);;
  v <- python_version;;
  safe_print (lit "Python: " ++ v);;
  (* Check standalone script exists *)
  present <- path_exists entry_point;;
  (if negb present then
     safe_print (nl ++ lit "[X] Error: mth5_validator_standalone.py not found!");;
     safe_print (lit "  Make sure you're running this from the mth5 repository root.");;
     sys_exit 1
   else ret tt);;
  (* Check dependencies *)
  ok <- check_dependencies;;
  (if negb ok then
     safe_print (nl ++ lit "[X] Cannot proceed without required dependencies");;
     sys_exit 1
   else ret tt);;
  (* Clean previous builds *)
  clean_build_dirs;;
  (* Build executable *)
  built <- build_executable;;
  (if negb built then
     safe_print (nl ++ lit "[X] Build failed");;
     sys_exit 1
   else ret tt);;
  (* Test executable *)
  _ <- test_executable;;
  (* Print summary *)
  print_summary;;
  ret 0%Z.

(** [sys.exit(main())]: the exit status of the process.  An exception that
    reaches the top level ends the interpreter with status 1. *)
Definition run_script (w : World) : Z * World :=
  match main w with
  | (Ret c, w') => (c, w')
  | (Exit c, w') => (c, w')
  | (Raise _, w') => (1%Z, w')
  end.

End Script.


(** A sample host: Linux, a Latin-1 terminal, pip and the built binary
    succeed without touching anything, PyInstaller writes the binary. *)
Definition built_dist : pystr * node :=
  (lit "dist", Dir Writable [(lit "mth5-validator", File Writable 26214400)]).

Definition linux_host : Host :=
  mkHost (lit "Linux") (lit "x86_64") (lit "3.11.4 (main, Jun  7 2023)")
    (lit "/usr/bin/python3") (lit "/") (fun p => lit "/work/" ++ p) 4096
    (fun c => (c <? 256)%N)
    (fun _ => lit "'latin-1' codec can't encode characters")
    (fun _ p => lit "[Errno 13] Permission denied: '" ++ p ++ lit "'")
    (fun _ e => (0%Z, e))
    (fun _ e => (Ret tt, mkEnv (built_dist :: fs e) (modules e))).

Definition source_file : pystr * node :=
  (entry_point, File Writable 18000).

Definition both_installed : list (pystr * pystr) :=
  [(lit "h5py", lit "3.9.0"); (lit "PyInstaller", lit "6.3.0")].

(** A host without network: pip fails and changes nothing. *)
Definition offline_host : Host :=
  mkHost (lit "Linux") (lit "x86_64") (lit "3.11.4 (main, Jun  7 2023)")
    (lit "/usr/bin/python3") (lit "/") (fun p => lit "/work/" ++ p) 4096
    (fun c => (c <? 256)%N)
    (fun _ => lit "'latin-1' codec can't encode characters")
    (fun _ p => lit "[Errno 13] Permission denied: '" ++ p ++ lit "'")
    (fun cmd e =>
       if startswith (lit "/usr/bin/python3 -m pip") cmd then (256%Z, e)
       else (0%Z, e))
    (fun _ e => (Ret tt, mkEnv (built_dist :: fs e) (modules e))).

Definition only_pyinstaller : World :=
  mkWorld (mkEnv [source_file] [(lit "PyInstaller", lit "6.3.0")]) [].

(** The lines [main] writes before its first gate. *)
Definition banner (h : Host) : list pystr :=
  [ rule "=";
    lit "MTH5 Standalone Validator - Executable Builder";
    rule "=";
    nl ++ lit "Platform: " ++ platform_system h ++ lit " "
       ++ platform_machine h;
    lit "Python: " ++ hd [] (py_split (sys_version h)) ].

Definition prints (h : Host) (lines : list pystr) : list event :=
  map (fun l => EPrint (rendered h l)) lines.

Arguments lit : simpl never.
Arguments rule : simpl never.
Arguments rendered : simpl never.
Arguments safe_print : simpl never.

(** The argument vector, written out. *)
Definition fixed_args : list pystr :=
  [ lit "mth5_validator_standalone.py";
    lit "--onefile";
    lit "--name=mth5-validator";
    lit "--console";
    lit "--clean";
    lit "--collect-all=h5py";
    lit "--hidden-import=h5py.defs";
    lit "--hidden-import=h5py.utils";
    lit "--hidden-import=h5py._proxy";
    lit "--hidden-import=h5py.h5ac";
    lit "--copy-metadata=h5py";
    lit "--copy-metadata=numpy";
    lit "--exclude-module=matplotlib";
    lit "--exclude-module=scipy";
    lit "--exclude-module=pandas";
    lit "--exclude-module=tkinter";
    lit "--exclude-module=PyQt5";
    lit "--exclude-module=PyQt6";
    lit "--exclude-module=jupyter";
    lit "--exclude-module=IPython";
    lit "--exclude-module=pytest";
    lit "--exclude-module=obspy";
    lit "--exclude-module=mt_metadata";
    lit "--exclude-module=mth5";
    lit "--log-level=WARN" ].

(** The arguments that start with [prefix], without it. *)
Definition options (prefix : string) (args : list pystr) : list pystr :=
  map (skipn (List.length (lit prefix)))
      (filter (startswith (lit prefix)) args).

(** The contents the specification lists for the argument vector, with the
    number of excluded libraries left open. *)
Definition args_as_specified (excluded : nat) (args : list pystr) : Prop :=
  hd_error args = Some entry_point /\
  In (lit "--onefile") args /\
  options "--name=" args = [lit "mth5-validator"] /\
  In (lit "--console") args /\
  options "--collect-all=" args = [lit "h5py"] /\
  List.length (options "--hidden-import=" args) = 4 /\
  List.length (options "--hidden-import=h5py." args) = 4 /\
  options "--copy-metadata=" args = [lit "h5py"; lit "numpy"] /\
  List.length (options "--exclude-module=" args) = excluded /\
  NoDup (options "--exclude-module=" args) /\
  options "--log-level=" args = [lit "WARN"].

(** What [build_executable] prints before it calls PyInstaller. *)
Definition build_prelude (h : Host) : list pystr :=
  [ nl ++ lit "Building Standalone MTH5 Validator for " ++ platform_system h
       ++ lit "...";
    rule "=";
    nl ++ lit "PyInstaller configuration:";
    lit "  Entry point: mth5_validator_standalone.py";
    lit "  Output name: "
       ++ (if is_windows h then lit "mth5-validator" ++ lit ".exe"
           else lit "mth5-validator");
    lit "  Mode: Single file";
    lit "  Dependencies: h5py only";
    lit "  Platform: " ++ platform_system h ].

(** What [test_executable] prints before and after it runs the binary. *)
Definition test_prelude (h : Host) (n : node) : list pystr :=
  [ nl ++ lit "Testing executable: " ++ exe_path h;
    rule "=";
    lit "  Size: " ++ fmt_mb (st_size_of (dir_st_size h) n) ++ lit " MB";
    nl ++ lit "  Running: mth5-validator --help";
    rule "-" ].

Definition test_verdict (status : Z) : list pystr :=
  if Z.eqb status 0
  then [ rule "-"; lit "[OK] Executable test passed!" ]
  else [ lit "[X] Executable test failed" ].


Arguments fmt_mb : simpl never.
Arguments build_args : simpl never.

(* ===================================================================== *)
(** ** What the cleaner does, as functions of the directory *)
(* ===================================================================== *)

(** The names the cleaner goes after. *)
Definition is_target (name : pystr) : bool :=
  str_eqb name (lit "build") || str_eqb name (lit "dist")
  || fnmatch (lit "*.spec") name.

Definition untouched (kn : pystr * node) : bool := negb (is_target (fst kn)).

Definition clean_dir_fs (d : pystr) (es : dirents) : dirents :=
  match lookup d es with
  | None => es
  | Some n => store d (fst (rmtree_node handle_remove_readonly n)) es
  end.

Definition clean_dir_events (h : Host) (d : pystr) (es : dirents)
  : list event :=
  match lookup d es with
  | None => []
  | Some _ =>
      [ ESleep; ERmtree d;
        EPrint (rendered h (lit "  Removed " ++ d ++ lit "/")) ]
  end.

Definition unlink_fs (f : pystr) (es : dirents) : dirents :=
  match do_unlink (lookup f es) with
  | inl t => store f t es
  | inr _ => es
  end.

Definition unlink_warning (h : Host) (f : pystr) (err : oserror) : pystr :=
  lit "  Warning: Could not remove " ++ f ++ lit " (" ++ strerror h err f
    ++ lit ")".

Definition unlink_events (h : Host) (f : pystr) (es : dirents)
  : list event :=
  [ EUnlink f;
    EPrint (rendered h
      match do_unlink (lookup f es) with
      | inl _ => lit "  Removed " ++ f
      | inr err => unlink_warning h f err
      end) ].

Fixpoint clean_files_fs (files : list pystr) (es : dirents) : dirents :=
  match files with
  | [] => es
  | f :: rest => clean_files_fs rest (unlink_fs f es)
  end.

Fixpoint clean_files_events (h : Host) (files : list pystr) (es : dirents)
  : list event :=
  match files with
  | [] => []
  | f :: rest =>
      unlink_events h f es ++ clean_files_events h rest (unlink_fs f es)
  end.

(** The directory after the two [rmtree] calls, and after the whole stage. *)
Definition dirs_cleaned (es : dirents) : dirents :=
  clean_dir_fs (lit "dist") (clean_dir_fs (lit "build") es).

Definition cleaned_fs (es : dirents) : dirents :=
  clean_files_fs (glob (lit "*.spec") (dirs_cleaned es)) (dirs_cleaned es).

Definition clean_events (h : Host) (es : dirents) : list event :=
  EPrint (rendered h (nl ++ lit "Cleaning previous build artifacts..."))
  :: clean_dir_events h (lit "build") es
  ++ clean_dir_events h (lit "dist") (clean_dir_fs (lit "build") es)
  ++ clean_files_events h (glob (lit "*.spec") (dirs_cleaned es))
       (dirs_cleaned es).



(** A working directory whose [build/] holds a read-only file and a file
    another process keeps open. *)
Definition stale_build : pystr * node :=
  (lit "build",
   Dir Writable [ (lit "base_library.zip", File ReadOnly 1048576);
                  (lit "warn-mth5-validator.txt", File Locked 2048) ]).

Definition locked_world : World :=
  mkWorld (mkEnv [source_file; stale_build] both_installed) [].

Definition fresh_checkout : World :=
  mkWorld (mkEnv [source_file] both_installed) [].

(* ===================================================================== *)
(** ** Running the pipeline twice *)
(* ===================================================================== *)



(** A Windows host on which another process (a virus scanner, say) keeps a
    file of PyInstaller's work directory open.  PyInstaller, called with
    [--clean], gives up when it finds a [build] directory it cannot clear;
    otherwise it writes [build/], the spec file and the binary. *)
Definition work_dir : pystr * node :=
  (lit "build",
   Dir Writable [ (lit "mth5-validator",
                   Dir Writable [ (lit "base_library.zip", File Locked 1048576) ]) ]).

Definition windows_dist : pystr * node :=
  (lit "dist", Dir Writable [(lit "mth5-validator.exe", File Writable 26214400)]).

Definition busy_host : Host :=
  mkHost (lit "Windows") (lit "AMD64") (lit "3.12.1 (tags/v3.12.1)")
    (lit "C:\Python312\python.exe") (lit "\") (fun p => lit "C:\work\" ++ p)
    4096
    (fun c => (c <? 128)%N || N.eqb c 8364)
    (fun _ => lit "'charmap' codec can't encode character")
    (fun _ p => lit "[WinError 5] Access is denied: '" ++ p ++ lit "'")
    (fun _ e => (0%Z, e))
    (fun _ e =>
       match lookup (lit "build") (fs e) with
       | Some _ =>
           (Raise (mkExn OSError
              (lit "[WinError 32] The process cannot access the file because it is being used by another process")),
            e)
       | None =>
           (Ret tt,
            mkEnv (work_dir :: windows_dist
                   :: (lit "mth5-validator.spec", File Writable 900) :: fs e)
                  (modules e))
       end).










(* ===================================================================== *)
(** ** The remaining stages, as functions of the environment *)
(* ===================================================================== *)

(** What [print_summary] writes between its heading and its closing rule. *)
Definition summary_body (h : Host) (t : option node) : list pystr :=
  match t with
  | Some n =>
      [ nl ++ lit "[OK] Standalone executable created: "
           ++ abspath h (exe_path h);
        lit "  Size: " ++ fmt_mb (st_size_of (dir_st_size h) n)
           ++ lit " MB (lightweight - h5py only!)";
        lit "  Platform: " ++ platform_system h;
        nl ++ rule "-";
        lit "USAGE";
        rule "-";
        nl ++ lit "  Basic validation:";
        lit "    " ++ exe_path h ++ lit " validate data.mth5";
        nl ++ lit "  Verbose output:";
        lit "    " ++ exe_path h ++ lit " validate data.mth5 --verbose";
        nl ++ lit "  Check data integrity:";
        lit "    " ++ exe_path h ++ lit " validate data.mth5 --check-data";
        nl ++ lit "  JSON output:";
        lit "    " ++ exe_path h ++ lit " validate data.mth5 --json";
        nl ++ rule "-";
        lit "ADVANTAGES";
        rule "-";
        nl ++ lit "  + Small size: ~20-30 MB (vs 150+ MB for full mth5)";
        lit "  + Simple dependencies: h5py only";
        lit "  + No scipy/obspy/matplotlib bloat";
        lit "  + Fast startup and execution";
        lit "  + Standalone - no Python install needed";
        nl ++ rule "-";
        lit "DISTRIBUTION";
        rule "-";
        nl ++ lit "  The executable in dist/ can be distributed standalone.";
        lit "  Users do NOT need Python or any dependencies installed.";
        lit "  Copy " ++ exe_file h
           ++ lit " to any system and run it directly." ]
  | None => [ nl ++ lit "[X] Build failed - executable not found" ]
  end.

Definition summary_lines (h : Host) (t : option node) : list pystr :=
  [ nl ++ rule "="; lit "BUILD SUMMARY"; rule "=" ]
  ++ summary_body h t ++ [ nl ++ rule "=" ].

(** The environment after the h5py check, and after the whole dependency
    check: pip runs for what could not be imported. *)
Definition after_h5py_check (h : Host) (e : Env) : Env :=
  match assoc (lit "h5py") (modules e) with
  | Some _ => e
  | None => snd (os_system h (pip_install h "h5py") e)
  end.

Definition after_dependency_check (h : Host) (e : Env) : Env :=
  let e1 := after_h5py_check h e in
  match assoc (lit "PyInstaller") (modules e1) with
  | Some _ => e1
  | None => snd (os_system h (pip_install h "pyinstaller") e1)
  end.

Definition dependency_verdict (h : Host) (e : Env) : bool :=
  match assoc (lit "PyInstaller") (modules (after_dependency_check h e)) with
  | Some _ => true
  | None => false
  end.

Definition h5py_events (h : Host) (e : Env) : list event :=
  EImport (lit "h5py")
  :: match assoc (lit "h5py") (modules e) with
     | Some v => [ EPrint (rendered h (lit "  [OK] h5py " ++ v)) ]
     | None =>
         [ EPrint (rendered h (lit "  [X] h5py not found - installing..."));
           ESystem (pip_install h "h5py") ]
     end.

Definition pyinstaller_events (h : Host) (e : Env) : list event :=
  EImport (lit "PyInstaller")
  :: match assoc (lit "PyInstaller") (modules e) with
     | Some v => [ EPrint (rendered h (lit "  [OK] PyInstaller " ++ v)) ]
     | None =>
         [ EPrint (rendered h
             (lit "  [X] PyInstaller not found - installing..."));
           ESystem (pip_install h "pyinstaller");
           EImport (lit "PyInstaller");
           EPrint (rendered h
             match assoc (lit "PyInstaller")
                     (modules (snd (os_system h (pip_install h "pyinstaller") e)))
             with
             | Some v => lit "  [OK] PyInstaller " ++ v ++ lit " installed"
             | None => lit "  [X] Failed to install PyInstaller"
             end) ]
     end.

Definition dependency_events (h : Host) (e : Env) : list event :=
  EPrint (rendered h (lit "Checking dependencies..."))
  :: h5py_events h e ++ pyinstaller_events h (after_h5py_check h e).

Definition is_system (e : event) : bool :=
  match e with ESystem _ => true | _ => false end.

(** The events of the cleaning and building stages. *)
Definition is_build_step (e : event) : bool :=
  match e with
  | ESleep | ERmtree _ | EUnlink _ | EPyInstaller _ => true
  | _ => false
  end.

(** The environment PyInstaller is started in, and how [main] ends. *)
Definition build_start_env (h : Host) (e : Env) : Env :=
  mkEnv (cleaned_fs (fs (after_dependency_check h e)))
        (modules (after_dependency_check h e)).


(** A host whose PyInstaller ends the interpreter itself, as it does on a
    failed analysis. *)
Definition exiting_tool_host : Host :=
  mkHost (lit "Linux") (lit "x86_64") (lit "3.11.4 (main, Jun  7 2023)")
    (lit "/usr/bin/python3") (lit "/") (fun p => lit "/work/" ++ p) 4096
    (fun c => (c <? 256)%N)
    (fun _ => lit "'latin-1' codec can't encode characters")
    (fun _ p => lit "[Errno 13] Permission denied: '" ++ p ++ lit "'")
    (fun _ e => (0%Z, e))
    (fun _ e => (Exit 2, e)).


Definition bare_checkout : World := mkWorld (mkEnv [source_file] []) [].




(** A pattern without wildcards. *)
Definition plain (pat : pystr) : bool :=
  forallb (fun c => negb (N.eqb c 42) && negb (N.eqb c 63)) pat.






(** The events of the last three stages, as functions of the environment
    each of them starts in, and the environment the smoke test leaves. *)
Definition build_events (h : Host) (e : Env) : list event :=
  EImport (lit "PyInstaller.__main__")
  :: prints h (build_prelude h)
  ++ EPyInstaller fixed_args
  :: match fst (pyinstaller_run h fixed_args e) with
     | Ret _ =>
         prints h [ nl ++ rule "="; lit "[OK] Build completed successfully!" ]
     | Raise x =>
         prints h [ nl ++ rule "="; lit "[X] Build failed: " ++ message x ]
     | Exit _ => []
     end.

Definition test_events (h : Host) (e : Env) : list event :=
  match exe_node h e with
  | None => prints h [ nl ++ lit "[X] Executable not found: " ++ exe_path h ]
  | Some n =>
      prints h (test_prelude h n)
      ++ ESystem (help_command h)
      :: prints h (test_verdict (fst (os_system h (help_command h) e)))
  end.

Definition after_test (h : Host) (e : Env) : Env :=
  match exe_node h e with
  | None => e
  | Some _ => snd (os_system h (help_command h) e)
  end.

Definition is_clean_step (e : event) : bool :=
  match e with
  | ESleep | ERmtree _ | EUnlink _ => true
  | _ => false
  end.

Definition is_import (e : event) : bool :=
  match e with EImport _ => true | _ => false end.

Definition is_tool_call (e : event) : bool :=
  match e with EPyInstaller _ => true | _ => false end.

(* ===================================================================== *)
(** ** Running the monad *)
(* ===================================================================== *)

Lemma bind_log {B} (e : event) (k : unit -> M B) (w : World) :
  bind (log e) k w = k tt (logw e w).
Proof. reflexivity. Qed.

Lemma bind_get_env {B} (k : Env -> M B) (w : World) :
  bind get_env k w = k (env w) w.
Proof. reflexivity. Qed.

Lemma bind_ret {A B} (a : A) (k : A -> M B) (w : World) :
  bind (ret a) k w = k a w.
Proof. reflexivity. Qed.

Lemma bind_put_env {B} (e : Env) (k : unit -> M B) (w : World) :
  bind (put_env e) k w = k tt (mkWorld e (trace w)).
Proof. reflexivity. Qed.

Lemma bind_returns {A B} (m : M A) (k : A -> M B) (w w' : World) (a : A) :
  m w = (Ret a, w') -> bind m k w = k a w'.
Proof. intros H. unfold bind. rewrite H. reflexivity. Qed.

Lemma bind_bind {A B C} (m : M A) (f : A -> M B) (g : B -> M C) (w : World) :
  bind (bind m f) g w = bind m (fun a => bind (f a) g) w.
Proof. unfold bind. destruct (m w) as [[a|e|c] w']; reflexivity. Qed.

(* ===================================================================== *)
(** ** Strings *)
(* ===================================================================== *)

Lemma str_eqb_eq (a b : pystr) : str_eqb a b = true <-> a = b.
Proof.
  revert b. induction a as [|x a IH]; intros [|y b]; simpl;
    try (split; [discriminate | discriminate]); [tauto|].
  rewrite andb_true_iff, N.eqb_eq, IH.
  split; [intros [-> ->]; reflexivity | intros [= -> ->]; auto].
Qed.

Lemma str_eqb_refl (a : pystr) : str_eqb a a = true.
Proof. apply str_eqb_eq. reflexivity. Qed.




Lemma ascii_replace_is_ascii (s : pystr) :
  forallb is_ascii (ascii_replace s) = true.
Proof.
  induction s as [|c s IH]; simpl; [reflexivity|].
  rewrite IH, andb_true_r.
  destruct (is_ascii c) eqn:E; [exact E | reflexivity].
Qed.

Lemma forallb_weaken {A} (p q : A -> bool) (l : list A) :
  (forall x, p x = true -> q x = true) ->
  forallb p l = true -> forallb q l = true.
Proof.
  intros Hpq. induction l as [|x l IH]; simpl; [reflexivity|].
  intros Hl. apply andb_true_iff in Hl as [Hx Hl].
  rewrite (Hpq _ Hx), (IH Hl). reflexivity.
Qed.

(* ===================================================================== *)
(** ** [safe_print] *)
(* ===================================================================== *)

Lemma safe_print_run (h : Host) (message : pystr) (w : World) :
  stdout_ascii h ->
  safe_print h message w = (Ret tt, logw (EPrint (rendered h message)) w).
Proof.
  intros Hascii.
  unfold safe_print, try_except, print, rendered, log.
  destruct (forallb (stdout_encodable h) message) eqn:E; [reflexivity|].
  cbn [kind is_unicode_encode_error].
  rewrite (forallb_weaken is_ascii (stdout_encodable h) _ Hascii
             (ascii_replace_is_ascii _)).
  reflexivity.
Qed.

Lemma bind_safe_print {B} (h : Host) (message : pystr) (k : unit -> M B)
      (w : World) :
  stdout_ascii h ->
  bind (safe_print h message) k w
  = k tt (logw (EPrint (rendered h message)) w).
Proof. intros H. unfold bind. rewrite safe_print_run by exact H. reflexivity. Qed.


Lemma linux_host_ascii : stdout_ascii linux_host.
Proof.
  intros c Hc. unfold is_ascii in Hc. cbn.
  apply N.ltb_lt in Hc. apply N.ltb_lt. lia.
Qed.

Lemma linux_host_ok : host_ok linux_host.
Proof. split; [exact linux_host_ascii | discriminate]. Qed.


(* ===================================================================== *)
(** ** The gates of [main] and the dependency checker *)
(* ===================================================================== *)

Ltac run_prints H :=
  repeat (first [ rewrite bind_bind
                | rewrite bind_safe_print by exact H
                | rewrite safe_print_run by exact H
                | rewrite bind_ret
                | rewrite bind_log
                | rewrite bind_get_env
                | rewrite bind_put_env ];
          cbv beta; unfold logw; cbn [env trace]).

Ltac flatten_trace :=
  unfold logw; cbn [env trace]; rewrite <- ?app_assoc; cbn [app].

Lemma main_banner {B} (h : Host) (rest : M B) (w : World) :
  host_ok h ->
  (safe_print h (rule "=");;
   safe_print h (lit "MTH5 Standalone Validator - Executable Builder");;
   safe_print h (rule "=");;
   safe_print h (nl ++ lit "Platform: " ++ platform_system h ++ lit " "
                 ++ platform_machine h);;
   v <- python_version h;;
   safe_print h (lit "Python: " ++ v);;
   rest) w
  = rest (mkWorld (env w) (trace w ++ prints h (banner h))).
Proof.
  intros [Ha Hv]. run_prints Ha.
  unfold python_version.
  destruct (py_split (sys_version h)) as [|v vs] eqn:Ev; [contradiction|].
  rewrite bind_ret. run_prints Ha.
  unfold banner, prints. rewrite Ev. flatten_trace. reflexivity.
Qed.

(** What [main] writes when the entry point is missing. *)
Lemma main_exits_without_entry_point (h : Host) (w : World) :
  host_ok h ->
  lookup entry_point (fs (env w)) = None ->
  main h w =
    (Exit 1,
     mkWorld (env w)
       (trace w ++ prints h (banner h ++
          [ nl ++ lit "[X] Error: mth5_validator_standalone.py not found!";
            lit "  Make sure you're running this from the mth5 repository root." ]))).
Proof.
  intros Hok Hmissing.
  unfold main. rewrite main_banner by exact Hok.
  destruct Hok as [Ha _].
  unfold path_exists. run_prints Ha.
  cbn [env]. rewrite Hmissing. cbn [negb]. run_prints Ha.
  unfold bind, sys_exit. unfold prints. rewrite map_app.
  flatten_trace. reflexivity.
Qed.

(** C1.  When [mth5_validator_standalone.py] is absent from the working
    directory, [main] ends with [sys.exit(1)] after writing the banner and
    the two error lines, and the process exits with status 1.  Nothing else
    has happened: the filesystem and the importable modules are as before,
    and the events added to the trace are all prints, so no import, no shell
    command, no deletion and no PyInstaller call took place: neither the
    dependency checker, nor the cleaner, nor the builder has run. *)
Theorem main_entry_point_missing (h : Host) (w : World) :
  host_ok h ->
  lookup entry_point (fs (env w)) = None ->
  exists evs,
    main h w = (Exit 1, mkWorld (env w) (trace w ++ evs)) /\
    evs = prints h (banner h ++
            [ nl ++ lit "[X] Error: mth5_validator_standalone.py not found!";
              lit "  Make sure you're running this from the mth5 repository root." ]) /\
    forallb is_print evs = true /\
    run_script h w = (1%Z, mkWorld (env w) (trace w ++ evs)).
Proof.
  intros Hok Hmissing.
  pose proof (@main_exits_without_entry_point h w Hok Hmissing) as Hmain.
  eexists. split; [exact Hmain|]. split; [reflexivity|]. split.
  - unfold prints. rewrite forallb_forall. intros e Hin.
    apply in_map_iff in Hin as (l & <- & _). reflexivity.
  - unfold run_script. rewrite Hmain. reflexivity.
Qed.

Lemma main_entry_point_missing_witness :
  fst (main linux_host (mkWorld (mkEnv [built_dist] both_installed) []))
  = Exit 1.
Proof.
  destruct (@main_entry_point_missing linux_host
              (mkWorld (mkEnv [built_dist] both_installed) [])
              linux_host_ok eq_refl) as (evs & -> & _).
  reflexivity.
Defined.

(** The dependency checker when nothing is missing. *)
Lemma check_dependencies_importable (h : Host) (w : World) (v1 v2 : pystr) :
  stdout_ascii h ->
  assoc (lit "h5py") (modules (env w)) = Some v1 ->
  assoc (lit "PyInstaller") (modules (env w)) = Some v2 ->
  check_dependencies h w =
    (Ret true,
     mkWorld (env w)
       (trace w ++
        [ EPrint (rendered h (lit "Checking dependencies..."));
          EImport (lit "h5py");
          EPrint (rendered h (lit "  [OK] h5py " ++ v1));
          EImport (lit "PyInstaller");
          EPrint (rendered h (lit "  [OK] PyInstaller " ++ v2)) ])).
Proof.
  intros Ha H1 H2.
  unfold check_dependencies. run_prints Ha.
  unfold bind at 1. unfold try_except at 1.
  unfold import_module at 1. run_prints Ha.
  change (top_package (lit "h5py")) with (lit "h5py").
  rewrite H1. run_prints Ha.
  unfold try_except. unfold import_module. run_prints Ha.
  change (top_package (lit "PyInstaller")) with (lit "PyInstaller").
  rewrite H2. run_prints Ha.
  unfold ret. flatten_trace. reflexivity.
Qed.

(** C7.  With h5py and PyInstaller both importable, the dependency checker
    returns [True] having only printed and imported: no shell command (so no
    pip run) is issued, and the environment is untouched. *)
Theorem check_dependencies_no_install (h : Host) (w : World) (v1 v2 : pystr) :
  stdout_ascii h ->
  assoc (lit "h5py") (modules (env w)) = Some v1 ->
  assoc (lit "PyInstaller") (modules (env w)) = Some v2 ->
  exists evs,
    check_dependencies h w = (Ret true, mkWorld (env w) (trace w ++ evs)) /\
    evs = [ EPrint (rendered h (lit "Checking dependencies..."));
            EImport (lit "h5py");
            EPrint (rendered h (lit "  [OK] h5py " ++ v1));
            EImport (lit "PyInstaller");
            EPrint (rendered h (lit "  [OK] PyInstaller " ++ v2)) ] /\
    forall cmd, ~ In (ESystem cmd) evs.
Proof.
  intros Ha H1 H2. eexists. split; [|split; [reflexivity|]].
  - apply check_dependencies_importable; assumption.
  - intros cmd Hin. cbn in Hin.
    repeat (destruct Hin as [Hin|Hin]; [discriminate Hin|]). exact Hin.
Qed.

Lemma check_dependencies_no_install_witness :
  fst (check_dependencies linux_host
         (mkWorld (mkEnv [source_file] both_installed) [])) = Ret true.
Proof.
  destruct (@check_dependencies_no_install linux_host
              (mkWorld (mkEnv [source_file] both_installed) [])
              (lit "3.9.0") (lit "6.3.0") linux_host_ascii eq_refl eq_refl)
    as (evs & -> & _).
  reflexivity.
Defined.

(** C2 (the code departs from it).  h5py is not importable, pip cannot
    install it, PyInstaller is importable: the checker runs pip once for
    h5py, never imports h5py again, and returns [True] although h5py is still
    missing; [main] then goes on to clean and build and returns 0. *)
Theorem check_dependencies_h5py_unverified :
  check_dependencies offline_host only_pyinstaller =
    (Ret true,
     mkWorld (env only_pyinstaller)
       [ EPrint (lit "Checking dependencies...");
         EImport (lit "h5py");
         EPrint (lit "  [X] h5py not found - installing...");
         ESystem (lit "/usr/bin/python3 -m pip install h5py");
         EImport (lit "PyInstaller");
         EPrint (lit "  [OK] PyInstaller 6.3.0") ])
  /\ fst (os_system offline_host (lit "/usr/bin/python3 -m pip install h5py")
            (env only_pyinstaller)) <> 0%Z
  /\ assoc (lit "h5py") (modules (env only_pyinstaller)) = None
  /\ fst (main offline_host only_pyinstaller) = Ret 0%Z.
Proof.
  split; [vm_compute; reflexivity|].
  split; [vm_compute; discriminate|].
  split; vm_compute; reflexivity.
Qed.

(* ===================================================================== *)
(** ** The build invoker *)
(* ===================================================================== *)

Lemma build_args_eq (h : Host) : build_args h = fixed_args.
Proof.
  unfold build_args, fixed_args.
  destruct (is_windows h); reflexivity.
Qed.

Lemma import_module_run {B} (name v : pystr) (k : pystr -> M B)
      (w : World) :
  assoc (top_package name) (modules (env w)) = Some v ->
  bind (import_module name) k w = k v (logw (EImport name) w).
Proof.
  intros Hv. unfold import_module.
  rewrite bind_bind, bind_log, bind_bind, bind_get_env.
  cbn [logw env]. rewrite Hv. apply bind_ret.
Qed.

Lemma run_pyinstaller_run (h : Host) (args : list pystr) (w : World) :
  run_pyinstaller h args w =
    let '(r, e') := pyinstaller_run h args (env w) in
    (r, mkWorld e' (trace w ++ [EPyInstaller args])).
Proof. reflexivity. Qed.

Lemma system_run (h : Host) (cmd : pystr) (w : World) :
  system h cmd w =
    let '(status, e') := os_system h cmd (env w) in
    (Ret status, mkWorld e' (trace w ++ [ESystem cmd])).
Proof. reflexivity. Qed.

(** What [build_executable] does once PyInstaller is importable: it is
    decided by what the tool does on the fixed arguments. *)
Lemma build_executable_run (h : Host) (w : World) (v : pystr) :
  stdout_ascii h ->
  assoc (lit "PyInstaller") (modules (env w)) = Some v ->
  build_executable h w =
    let called :=
      trace w ++ EImport (lit "PyInstaller.__main__")
        :: prints h (build_prelude h) ++ [EPyInstaller fixed_args] in
    match pyinstaller_run h fixed_args (env w) with
    | (Ret _, e') =>
        (Ret true,
         mkWorld e' (called ++ prints h
           [ nl ++ rule "="; lit "[OK] Build completed successfully!" ]))
    | (Raise x, e') =>
        (Ret false,
         mkWorld e' (called ++ prints h
           [ nl ++ rule "="; lit "[X] Build failed: " ++ message x ]))
    | (Exit c, e') => (Exit c, mkWorld e' called)
    end.
Proof.
  intros Ha Hv. unfold build_executable.
  rewrite import_module_run with (v := v) by exact Hv.
  run_prints Ha. rewrite build_args_eq.
  unfold try_except. unfold bind at 1. rewrite run_pyinstaller_run.
  cbn [logw env trace].
  destruct (pyinstaller_run h fixed_args (env w)) as [[[]|x|c] e'];
    cbv beta iota; cbn [any_exception]; run_prints Ha;
    unfold ret, prints, build_prelude; flatten_trace; reflexivity.
Qed.

(** C5, as the code has it.  On every host the build invoker constructs the
    same argument vector: the entry-point file first, [--onefile], the
    output name [mth5-validator] with no [.exe], [--console], full
    collection of h5py, four hidden imports (all of them h5py submodules),
    metadata of h5py and numpy, twelve distinct excluded libraries, and log
    level WARN.  When PyInstaller is importable, that vector is what the tool
    is called with, once. *)
Theorem build_args_fixed (h : Host) :
  build_args h = fixed_args /\
  args_as_specified 12 (build_args h) /\
  forall w v,
    stdout_ascii h ->
    assoc (lit "PyInstaller") (modules (env w)) = Some v ->
    exists before after,
      trace (snd (build_executable h w))
      = trace w ++ before ++ EPyInstaller fixed_args :: after /\
      (forall a, ~ In (EPyInstaller a) (before ++ after)).
Proof.
  split; [apply build_args_eq|]. split.
  - rewrite build_args_eq. unfold args_as_specified.
    repeat split; try reflexivity; try (vm_compute; tauto).
    vm_compute.
    repeat (constructor; [cbn; intros Hin;
      repeat (destruct Hin as [Hin|Hin]; [discriminate Hin|]); exact Hin|]).
    constructor.
  - intros w v Ha Hv.
    rewrite (@build_executable_run h w v Ha Hv). cbv zeta.
    exists (EImport (lit "PyInstaller.__main__") :: prints h (build_prelude h)).
    destruct (pyinstaller_run h fixed_args (env w)) as [[[]|x|c] e'];
      cbn [snd trace];
      [ exists (prints h [nl ++ rule "="; lit "[OK] Build completed successfully!"])
      | exists (prints h [nl ++ rule "="; lit "[X] Build failed: " ++ message x])
      | exists [] ];
      (split;
       [ rewrite <- ?app_assoc; cbn [app]; rewrite <- ?app_assoc; cbn [app];
         rewrite ?app_nil_r; reflexivity
       | intros a Hin; cbn in Hin;
         repeat (destruct Hin as [Hin|Hin]; [discriminate Hin|]); exact Hin ]).
Qed.

Lemma build_args_fixed_witness :
  In (EPyInstaller fixed_args)
     (trace (snd (build_executable linux_host
                    (mkWorld (mkEnv [source_file] both_installed) [])))).
Proof.
  destruct (build_args_fixed linux_host) as (_ & _ & Hcall).
  destruct (Hcall (mkWorld (mkEnv [source_file] both_installed) [])
                  (lit "6.3.0") linux_host_ascii eq_refl)
    as (before & after & -> & _).
  cbn [trace app]. apply in_or_app. right. left. reflexivity.
Defined.

(** C5, as the specification words it, fails: the exclusion list does not
    have nine entries. *)
Lemma build_args_not_nine_exclusions :
  ~ args_as_specified 9 (build_args linux_host).
Proof.
  unfold args_as_specified. intros (_ & _ & _ & _ & _ & _ & _ & _ & H & _).
  vm_compute in H. discriminate H.
Qed.

(* ===================================================================== *)
(** ** The smoke tester and the summary *)
(* ===================================================================== *)

(** The smoke tester, case by case. *)
Lemma test_executable_run (h : Host) (w : World) :
  stdout_ascii h ->
  test_executable h w =
    match lookup2 (lit "dist") (exe_file h) (fs (env w)) with
    | None =>
        (Ret false,
         mkWorld (env w) (trace w ++ prints h
           [ nl ++ lit "[X] Executable not found: " ++ exe_path h ]))
    | Some n =>
        let '(status, e') := os_system h (help_command h) (env w) in
        (Ret (Z.eqb status 0),
         mkWorld e' (trace w ++ prints h (test_prelude h n)
                       ++ ESystem (help_command h)
                       :: prints h (test_verdict status)))
    end.
Proof.
  intros Ha. unfold test_executable. run_prints Ha. unfold exe_node.
  destruct (lookup2 (lit "dist") (exe_file h) (fs (env w))) as [n|].
  - run_prints Ha. unfold bind at 1. rewrite system_run.
    cbn [logw env trace].
    destruct (os_system h (help_command h) (env w)) as [status e'].
    cbv beta iota. unfold test_verdict, test_prelude, prints.
    destruct (Z.eqb status 0); run_prints Ha; unfold ret;
      flatten_trace; reflexivity.
  - run_prints Ha. unfold ret, prints. flatten_trace. reflexivity.
Qed.



Lemma test_executable_returns (h : Host) (w : World) :
  stdout_ascii h ->
  exists b w', test_executable h w = (Ret b, w').
Proof.
  intros Ha. rewrite (@test_executable_run h w Ha).
  destruct (lookup2 _ _ _); [|eauto].
  destruct (os_system _ _ _). eauto.
Qed.

Lemma print_summary_run (h : Host) (w : World) :
  stdout_ascii h ->
  exists evs,
    print_summary h w = (Ret tt, mkWorld (env w) (trace w ++ evs)) /\
    forallb is_print evs = true.
Proof.
  intros Ha. unfold print_summary. run_prints Ha. cbn [logw env].
  destruct (exe_node h (env w)); run_prints Ha;
    (eexists; split; [flatten_trace; reflexivity | reflexivity]).
Qed.

(* ===================================================================== *)
(** ** Directories: lookup, store, filter *)
(* ===================================================================== *)

Lemma str_eqb_neq (a b : pystr) : a <> b -> str_eqb a b = false.
Proof.
  intros Hne. destruct (str_eqb a b) eqn:E; [|reflexivity].
  apply str_eqb_eq in E. contradiction.
Qed.

Lemma lookup_store_other (k name : pystr) (t : option node) (es : dirents) :
  name <> k -> lookup name (store k t es) = lookup name es.
Proof.
  intros Hne. induction es as [|[k' n] es IH]; [reflexivity|].
  cbn [store lookup].
  destruct (str_eqb k' k) eqn:Ek.
  - apply str_eqb_eq in Ek. subst k'.
    rewrite (str_eqb_neq (not_eq_sym Hne)).
    destruct t; cbn [lookup]; [rewrite (str_eqb_neq (not_eq_sym Hne))|];
      reflexivity.
  - cbn [lookup]. rewrite IH. reflexivity.
Qed.






Lemma filter_store (k : pystr) (t : option node) (es : dirents) :
  is_target k = true ->
  filter untouched (store k t es) = filter untouched es.
Proof.
  intros Hk. induction es as [|[k' n] es IH]; [reflexivity|].
  cbn [store]. destruct (str_eqb k' k) eqn:Ek.
  - apply str_eqb_eq in Ek. subst k'.
    cbn [filter]. unfold untouched at 2. cbn [fst]. rewrite Hk. cbn [negb].
    destruct t; [|reflexivity].
    cbn [filter]. unfold untouched at 1. cbn [fst]. rewrite Hk. reflexivity.
  - cbn [filter]. rewrite IH. reflexivity.
Qed.

Lemma lookup_filter_untouched (name : pystr) (es : dirents) :
  is_target name = false ->
  lookup name (filter untouched es) = lookup name es.
Proof.
  intros Hn. induction es as [|[k n] es IH]; [reflexivity|].
  cbn [filter lookup]. unfold untouched at 1. cbn [fst].
  destruct (str_eqb k name) eqn:Ek.
  - apply str_eqb_eq in Ek. subst k. rewrite Hn. cbn [negb lookup].
    rewrite str_eqb_refl. reflexivity.
  - destruct (is_target k); cbn [negb lookup]; [|rewrite Ek]; exact IH.
Qed.

Lemma glob_matches (pattern f : pystr) (es : dirents) :
  In f (glob pattern es) -> fnmatch pattern f = true /\ In f (map fst es).
Proof.
  unfold glob. intros Hin. apply filter_In in Hin. tauto.
Qed.


(* ===================================================================== *)
(** ** [shutil.rmtree] with the script's handler *)
(* ===================================================================== *)

Lemma node_induction (P : node -> Prop) :
  (forall p s, P (File p s)) ->
  (forall p es, Forall (fun kn => P (snd kn)) es -> P (Dir p es)) ->
  forall n, P n.
Proof.
  intros HF HD. fix IH 1. intros [p s|p es]; [apply HF|].
  apply HD. induction es as [|[k c] es IHes]; constructor;
    [apply IH | exact IHes].
Qed.

Lemma handler_quiet (f : osfunc) (t : option node) :
  snd (handle_remove_readonly f t) = None.
Proof.
  unfold handle_remove_readonly.
  destruct (osfunc_eqb f os_rmdir || osfunc_eqb f os_remove
            || osfunc_eqb f os_unlink); [|reflexivity].
  destruct (do_chmod_write t) as [t1|]; [|reflexivity].
  destruct (call f t1); reflexivity.
Qed.

Lemma rmdir_or_quiet (t : option node) :
  snd (rmdir_or handle_remove_readonly t) = None.
Proof.
  unfold rmdir_or. destruct (do_rmdir t); [reflexivity | apply handler_quiet].
Qed.

Lemma each_child_quiet (rm : node -> option node * option exn) (es : dirents) :
  Forall (fun kn => snd (rm (snd kn)) = None) es ->
  snd (each_child rm handle_remove_readonly es) = None.
Proof.
  induction 1 as [|[k c] es Hc _ IH]; [reflexivity|].
  cbn [each_child]. cbn [snd] in Hc.
  assert (Hstep : snd (match c with
                       | Dir _ _ => rm c
                       | File _ _ =>
                           match do_unlink (Some c) with
                           | inl t => (t, None)
                           | inr _ => handle_remove_readonly os_unlink (Some c)
                           end
                       end) = None).
  { destruct c; [|exact Hc].
    destruct (do_unlink _); [reflexivity | apply handler_quiet]. }
  destruct (match c with Dir _ _ => _ | File _ _ => _ end) as [c' ex].
  cbn [snd] in Hstep. subst ex.
  destruct (each_child rm handle_remove_readonly es) as [rest' ex'].
  exact IH.
Qed.

(** The handler swallows every error, so this [rmtree] never raises. *)
Lemma rmtree_quiet (n : node) :
  snd (rmtree_node handle_remove_readonly n) = None.
Proof.
  induction n as [p s|p es IH] using node_induction.
  - cbn [rmtree_node].
    pose proof (handler_quiet os_scandir (Some (File p s))) as Hq.
    destruct (handle_remove_readonly os_scandir (Some (File p s))) as [t ex].
    cbn [snd] in Hq. subst ex. apply rmdir_or_quiet.
  - cbn [rmtree_node].
    pose proof (each_child_quiet _ IH) as Hq.
    destruct (each_child _ _ es) as [es' ex].
    cbn [snd] in Hq. subst ex. apply rmdir_or_quiet.
Qed.



(* ===================================================================== *)
(** ** The artifact cleaner *)
(* ===================================================================== *)

Lemma remove_dir_run (h : Host) (d : pystr) (es : dirents)
      (ms : list (pystr * pystr)) (tr : list event) :
  stdout_ascii h ->
  remove_dir h d (mkWorld (mkEnv es ms) tr) =
    (Ret tt,
     mkWorld (mkEnv (clean_dir_fs d es) ms) (tr ++ clean_dir_events h d es)).
Proof.
  intros Ha. unfold remove_dir, path_exists. run_prints Ha.
  cbn [env fs]. unfold clean_dir_fs, clean_dir_events.
  destruct (lookup d es) as [n|] eqn:El.
  - unfold try_except, sleep, shutil_rmtree. run_prints Ha.
    cbn [logw env fs modules trace]. rewrite El.
    pose proof (rmtree_quiet n) as Hq.
    destruct (rmtree_node handle_remove_readonly n) as [t ex].
    cbn [snd] in Hq. subst ex. cbn [fst].
    run_prints Ha. flatten_trace. reflexivity.
  - unfold ret. rewrite app_nil_r. reflexivity.
Qed.

Lemma remove_file_run (h : Host) (f : pystr) (es : dirents)
      (ms : list (pystr * pystr)) (tr : list event) :
  stdout_ascii h ->
  remove_file h f (mkWorld (mkEnv es ms) tr) =
    (Ret tt,
     mkWorld (mkEnv (unlink_fs f es) ms) (tr ++ unlink_events h f es)).
Proof.
  intros Ha. unfold remove_file, try_except, unlink. run_prints Ha.
  cbn [logw env fs modules trace]. unfold unlink_fs, unlink_events.
  destruct (do_unlink (lookup f es)) as [t|err].
  - run_prints Ha. flatten_trace. reflexivity.
  - unfold bind at 1, raise. cbn [any_exception kind message].
    run_prints Ha. unfold unlink_warning. flatten_trace. reflexivity.
Qed.

Lemma remove_files_run (h : Host) (files : list pystr) (es : dirents)
      (ms : list (pystr * pystr)) (tr : list event) :
  stdout_ascii h ->
  for_each files (remove_file h) (mkWorld (mkEnv es ms) tr) =
    (Ret tt,
     mkWorld (mkEnv (clean_files_fs files es) ms)
             (tr ++ clean_files_events h files es)).
Proof.
  intros Ha. revert es tr.
  induction files as [|f files IH]; intros es tr.
  - cbn [for_each clean_files_fs clean_files_events]. unfold ret.
    rewrite app_nil_r. reflexivity.
  - cbn [for_each clean_files_fs clean_files_events].
    rewrite (@bind_returns _ _ _ _ _ _ _ (remove_file_run f es ms tr Ha)).
    rewrite IH. rewrite <- app_assoc. reflexivity.
Qed.

(** The whole stage, once standard output takes ASCII: it returns, and what
    it leaves is given by [cleaned_fs] and [clean_events]. *)
Lemma clean_build_dirs_run (h : Host) (es : dirents)
      (ms : list (pystr * pystr)) (tr : list event) :
  stdout_ascii h ->
  clean_build_dirs h (mkWorld (mkEnv es ms) tr) =
    (Ret tt, mkWorld (mkEnv (cleaned_fs es) ms) (tr ++ clean_events h es)).
Proof.
  intros Ha. unfold clean_build_dirs. run_prints Ha.
  unfold dirs_to_clean, files_to_clean. cbn [for_each].
  run_prints Ha. cbn [logw env trace].
  rewrite (@bind_returns _ _ _ _ _ _ _ (remove_dir_run (lit "build") es ms _ Ha)).
  run_prints Ha.
  rewrite (@bind_returns _ _ _ _ _ _ _ (remove_dir_run (lit "dist") _ ms _ Ha)).
  run_prints Ha. cbn [env fs].
  rewrite (@bind_returns _ _ _ _ _ _ _ (remove_files_run _ _ ms _ Ha)).
  unfold ret, cleaned_fs, clean_events, dirs_cleaned.
  rewrite <- !app_assoc. reflexivity.
Qed.

Lemma clean_build_dirs_returns (h : Host) (w : World) :
  stdout_ascii h ->
  clean_build_dirs h w =
    (Ret tt,
     mkWorld (mkEnv (cleaned_fs (fs (env w))) (modules (env w)))
             (trace w ++ clean_events h (fs (env w)))).
Proof.
  destruct w as [[es ms] tr]. apply clean_build_dirs_run.
Qed.

Lemma build_is_target : is_target (lit "build") = true.
Proof. reflexivity. Qed.

Lemma dist_is_target : is_target (lit "dist") = true.
Proof. reflexivity. Qed.

Lemma spec_is_target (f : pystr) :
  fnmatch (lit "*.spec") f = true -> is_target f = true.
Proof. intros H. unfold is_target. rewrite H. apply orb_true_r. Qed.

Lemma clean_dir_frame (d : pystr) (es : dirents) :
  is_target d = true ->
  filter untouched (clean_dir_fs d es) = filter untouched es.
Proof.
  intros Hd. unfold clean_dir_fs.
  destruct (lookup d es); [apply filter_store; exact Hd | reflexivity].
Qed.

Lemma unlink_frame (f : pystr) (es : dirents) :
  is_target f = true ->
  filter untouched (unlink_fs f es) = filter untouched es.
Proof.
  intros Hf. unfold unlink_fs.
  destruct (do_unlink (lookup f es)); [apply filter_store; exact Hf|reflexivity].
Qed.

Lemma clean_files_frame (files : list pystr) (es : dirents) :
  Forall (fun f => is_target f = true) files ->
  filter untouched (clean_files_fs files es) = filter untouched es.
Proof.
  intros Hall. revert es.
  induction Hall as [|f files Hf _ IH]; intros es; [reflexivity|].
  cbn [clean_files_fs]. rewrite IH. apply unlink_frame. exact Hf.
Qed.

Lemma cleaned_frame (es : dirents) :
  filter untouched (cleaned_fs es) = filter untouched es.
Proof.
  unfold cleaned_fs, dirs_cleaned.
  rewrite clean_files_frame.
  - rewrite clean_dir_frame by exact dist_is_target.
    apply clean_dir_frame. exact build_is_target.
  - apply Forall_forall. intros f Hin.
    apply spec_is_target. apply glob_matches in Hin. apply Hin.
Qed.


Lemma clean_dir_lookup_other (d name : pystr) (es : dirents) :
  name <> d -> lookup name (clean_dir_fs d es) = lookup name es.
Proof.
  intros Hne. unfold clean_dir_fs.
  destruct (lookup d es); [apply lookup_store_other; exact Hne | reflexivity].
Qed.

Lemma unlink_lookup_other (f name : pystr) (es : dirents) :
  name <> f -> lookup name (unlink_fs f es) = lookup name es.
Proof.
  intros Hne. unfold unlink_fs.
  destruct (do_unlink (lookup f es));
    [apply lookup_store_other; exact Hne | reflexivity].
Qed.

Lemma clean_files_lookup_other (files : list pystr) (name : pystr)
      (es : dirents) :
  ~ In name files -> lookup name (clean_files_fs files es) = lookup name es.
Proof.
  revert es. induction files as [|f files IH]; intros es Hnot; [reflexivity|].
  cbn [clean_files_fs]. rewrite IH by (intros Hin; apply Hnot; right; exact Hin).
  apply unlink_lookup_other. intros ->. apply Hnot. left. reflexivity.
Qed.





Lemma lookup_store_same (k : pystr) (t : option node) (n : node)
      (es : dirents) :
  lookup k es = Some n -> lookup k (store k t es) = None -> t = None.
Proof.
  induction es as [|[k' m] es IH]; [discriminate|].
  cbn [lookup store]. destruct (str_eqb k' k) eqn:Ek.
  - intros _. destruct t as [n'|]; [|reflexivity].
    cbn [lookup]. rewrite Ek. discriminate.
  - cbn [lookup]. rewrite Ek. exact IH.
Qed.

Lemma rmtree_file_stays (p : perm) (s : N) :
  fst (rmtree_node handle_remove_readonly (File p s)) <> None.
Proof. destruct p; discriminate. Qed.

Lemma clean_dir_deletes_dir (d : pystr) (n : node) (es : dirents) :
  lookup d es = Some n -> lookup d (clean_dir_fs d es) = None ->
  is_dir n = true.
Proof.
  intros Hl Hgone. unfold clean_dir_fs in Hgone. rewrite Hl in Hgone.
  eapply lookup_store_same in Hgone; [|exact Hl].
  destruct n as [p s|p sub]; [|reflexivity].
  exfalso. exact (@rmtree_file_stays p s Hgone).
Qed.

Lemma unlink_keeps_dir (f name : pystr) (n : node) (es : dirents) :
  lookup name es = Some n -> is_dir n = true ->
  lookup name (unlink_fs f es) = Some n.
Proof.
  intros Hl Hdir. unfold unlink_fs.
  destruct (str_eqb f name) eqn:E.
  - apply str_eqb_eq in E. subst f. rewrite Hl.
    destruct n; [discriminate Hdir|]. exact Hl.
  - destruct (do_unlink (lookup f es)); [|exact Hl].
    rewrite lookup_store_other; [exact Hl|].
    intros ->. rewrite str_eqb_refl in E. discriminate E.
Qed.

Lemma clean_files_keep_dir (files : list pystr) (name : pystr) (n : node)
      (es : dirents) :
  lookup name es = Some n -> is_dir n = true ->
  lookup name (clean_files_fs files es) = Some n.
Proof.
  revert es. induction files as [|f files IH]; intros es Hl Hdir; [exact Hl|].
  cbn [clean_files_fs]. apply IH; [|exact Hdir].
  apply unlink_keeps_dir; assumption.
Qed.

Lemma not_in_spec_glob (d : pystr) (es : dirents) :
  fnmatch (lit "*.spec") d = false -> ~ In d (glob (lit "*.spec") es).
Proof.
  intros Hd Hin. apply glob_matches in Hin as [Hm _].
  rewrite Hd in Hm. discriminate Hm.
Qed.

(** What goes away in the stage is a directory called [build] or [dist], or
    something matching [*.spec] that is not a directory. *)
Lemma cleaned_only_deletes (name : pystr) (n : node) (es : dirents) :
  lookup name es = Some n -> lookup name (cleaned_fs es) = None ->
  (is_dir n = true /\ (name = lit "build" \/ name = lit "dist")) \/
  (is_dir n = false /\ fnmatch (lit "*.spec") name = true).
Proof.
  intros Hl Hgone. unfold cleaned_fs, dirs_cleaned in Hgone.
  destruct (str_eqb name (lit "build")) eqn:Eb.
  { apply str_eqb_eq in Eb. subst name. left. split; [|left; reflexivity].
    rewrite clean_files_lookup_other in Hgone
      by (apply not_in_spec_glob; reflexivity).
    rewrite clean_dir_lookup_other in Hgone by discriminate.
    eapply clean_dir_deletes_dir; eassumption. }
  destruct (str_eqb name (lit "dist")) eqn:Ed.
  { apply str_eqb_eq in Ed. subst name. left. split; [|right; reflexivity].
    rewrite clean_files_lookup_other in Hgone
      by (apply not_in_spec_glob; reflexivity).
    apply (@clean_dir_deletes_dir (lit "dist") n
             (clean_dir_fs (lit "build") es)); [|exact Hgone].
    rewrite clean_dir_lookup_other by discriminate. exact Hl. }
  assert (Hb : name <> lit "build")
    by (intros ->; rewrite str_eqb_refl in Eb; discriminate Eb).
  assert (Hd : name <> lit "dist")
    by (intros ->; rewrite str_eqb_refl in Ed; discriminate Ed).
  assert (Hl1 : lookup name
                  (clean_dir_fs (lit "dist") (clean_dir_fs (lit "build") es))
                = Some n)
    by (rewrite !clean_dir_lookup_other by assumption; exact Hl).
  right. destruct (is_dir n) eqn:Edir.
  - rewrite (@clean_files_keep_dir _ name n _ Hl1 Edir) in Hgone.
    discriminate Hgone.
  - split; [reflexivity|].
    destruct (fnmatch (lit "*.spec") name) eqn:Em; [reflexivity|].
    rewrite clean_files_lookup_other in Hgone
      by (apply not_in_spec_glob; exact Em).
    rewrite Hl1 in Hgone. discriminate Hgone.
Qed.

(** C8.  The cleaning stage leaves the importable modules alone and, in the
    working directory, every entry whose name is neither [build] nor [dist]
    nor matches [*.spec]: those entries are the same, in the same order,
    before and after, and looking any of them up gives the same result.
    Whatever is gone afterwards was a directory called [build] or [dist], or
    a non-directory whose name matches [*.spec]. *)
Theorem clean_build_dirs_frame (h : Host) (w : World) :
  stdout_ascii h ->
  modules (env (snd (clean_build_dirs h w))) = modules (env w) /\
  filter untouched (fs (env (snd (clean_build_dirs h w))))
  = filter untouched (fs (env w)) /\
  (forall name,
     name <> lit "build" -> name <> lit "dist" ->
     fnmatch (lit "*.spec") name = false ->
     lookup name (fs (env (snd (clean_build_dirs h w))))
     = lookup name (fs (env w))) /\
  (forall name n,
     lookup name (fs (env w)) = Some n ->
     lookup name (fs (env (snd (clean_build_dirs h w)))) = None ->
     (is_dir n = true /\ (name = lit "build" \/ name = lit "dist")) \/
     (is_dir n = false /\ fnmatch (lit "*.spec") name = true)).
Proof.
  intros Ha. rewrite (clean_build_dirs_returns w Ha). cbn [snd env fs modules].
  split; [reflexivity|]. split; [apply cleaned_frame|]. split.
  - intros name Hb Hd Hs.
    assert (Hn : is_target name = false).
    { unfold is_target. rewrite (str_eqb_neq Hb), (str_eqb_neq Hd), Hs.
      reflexivity. }
    transitivity (lookup name (filter untouched (cleaned_fs (fs (env w))))).
    { symmetry. apply lookup_filter_untouched. exact Hn. }
    rewrite cleaned_frame. apply lookup_filter_untouched. exact Hn.
  - intros name n. apply cleaned_only_deletes.
Qed.

Lemma clean_build_dirs_frame_witness :
  lookup entry_point (fs (env (snd (clean_build_dirs linux_host locked_world))))
  = Some (File Writable 18000).
Proof.
  destruct (@clean_build_dirs_frame linux_host locked_world linux_host_ascii)
    as (_ & _ & Hsame & _).
  rewrite (Hsame entry_point); [reflexivity | discriminate | discriminate
                                | reflexivity].
Defined.

(** From the two gates of [main] to its end: once the entry point is there
    and the dependency checker has said yes, the cleaner runs, and the
    outcome is decided by [build_executable] on the world the cleaner
    left. *)
Lemma main_after_gates (h : Host) (w w2 : World) :
  host_ok h ->
  lookup entry_point (fs (env w)) <> None ->
  check_dependencies h (mkWorld (env w) (trace w ++ prints h (banner h)))
  = (Ret true, w2) ->
  main h w =
    match build_executable h (snd (clean_build_dirs h w2)) with
    | (Ret true, w4) =>
        (Ret 0%Z, snd (print_summary h (snd (test_executable h w4))))
    | (Ret false, w4) =>
        (Exit 1, logw (EPrint (rendered h (nl ++ lit "[X] Build failed"))) w4)
    | (Raise e, w4) => (Raise e, w4)
    | (Exit c, w4) => (Exit c, w4)
    end.
Proof.
  intros Hok Hentry Hdeps. unfold main.
  rewrite main_banner by exact Hok. destruct Hok as [Ha _].
  unfold path_exists. run_prints Ha. cbn [env].
  destruct (lookup entry_point (fs (env w))); [|contradiction].
  cbn [negb]. run_prints Ha.
  rewrite (@bind_returns _ _ _ _ _ _ _ Hdeps). cbn [negb]. run_prints Ha.
  pose proof (clean_build_dirs_returns w2 Ha) as Hclean.
  rewrite Hclean. cbn [snd].
  rewrite (@bind_returns _ _ _ _ _ _ _ Hclean).
  unfold bind at 1.
  destruct (build_executable h _) as [[[]|e|c] w4]; try reflexivity.
  - cbn [negb]. run_prints Ha.
    destruct (test_executable_returns w4 Ha) as (b & w5 & Ht).
    rewrite (@bind_returns _ _ _ _ _ _ _ Ht), Ht. cbn [snd].
    destruct (print_summary_run w5 Ha) as (evs & Hs & _).
    rewrite (@bind_returns _ _ _ _ _ _ _ Hs), Hs. reflexivity.
  - cbn [negb]. run_prints Ha. reflexivity.
Qed.




(* ===================================================================== *)
(** ** The exit status of [main] *)
(* ===================================================================== *)




(* ===================================================================== *)
(** ** Two runs in a row *)
(* ===================================================================== *)

Lemma busy_host_ok : host_ok busy_host.
Proof.
  split; [|discriminate].
  intros c Hc. cbn. unfold is_ascii in Hc. rewrite Hc. reflexivity.
Qed.
























(* ===================================================================== *)
(** ** The summary reporter *)
(* ===================================================================== *)

Lemma print_summary_lines (h : Host) (w : World) :
  stdout_ascii h ->
  print_summary h w =
    (Ret tt,
     mkWorld (env w)
       (trace w ++ prints h (summary_lines h (exe_node h (env w))))).
Proof.
  intros Ha. unfold print_summary. run_prints Ha.
  unfold summary_lines, summary_body, prints.
  destruct (exe_node h (env w)); run_prints Ha; flatten_trace; reflexivity.
Qed.




(* ===================================================================== *)
(** ** How [build_executable] ends *)
(* ===================================================================== *)

(** X2.  The [import] at the top of [build_executable] is outside its
    [try]: without PyInstaller the function raises ImportError at once,
    before printing or calling anything.  With PyInstaller importable the
    tool is called on the fixed arguments and decides the rest: a normal
    return gives [True]; an exception is caught, its text printed after
    [[X] Build failed: ], and the result is [False]; a [SystemExit] is not
    caught by [except Exception] and leaves [build_executable] with the
    tool's code, nothing being printed after the call.  The environment is
    the one the tool left. *)
Theorem build_executable_outcomes (h : Host) (w : World) :
  stdout_ascii h ->
  (assoc (lit "PyInstaller") (modules (env w)) = None ->
   exists x,
     build_executable h w
     = (Raise x, logw (EImport (lit "PyInstaller.__main__")) w) /\
     kind x = ImportError) /\
  (assoc (lit "PyInstaller") (modules (env w)) <> None ->
   env (snd (build_executable h w))
   = snd (pyinstaller_run h fixed_args (env w)) /\
   fst (build_executable h w)
   = match fst (pyinstaller_run h fixed_args (env w)) with
     | Ret _ => Ret true
     | Raise _ => Ret false
     | Exit c => Exit c
     end /\
   (forall x, fst (pyinstaller_run h fixed_args (env w)) = Raise x ->
      exists before,
        trace (snd (build_executable h w))
        = before ++ [ EPrint (rendered h (nl ++ rule "="));
                      EPrint (rendered h (lit "[X] Build failed: "
                                          ++ message x)) ]) /\
   (forall c, fst (pyinstaller_run h fixed_args (env w)) = Exit c ->
      exists before,
        trace (snd (build_executable h w))
        = before ++ [ EPyInstaller fixed_args ])).
Proof.
  intros Ha. split.
  - intros Hnone. eexists. split.
    + unfold build_executable, import_module. run_prints Ha.
      change (top_package (lit "PyInstaller.__main__"))
        with (lit "PyInstaller").
      rewrite Hnone. reflexivity.
    + reflexivity.
  - intros Hsome.
    destruct (assoc (lit "PyInstaller") (modules (env w))) as [v|] eqn:Ev;
      [|contradiction].
    rewrite (@build_executable_run h w v Ha Ev). cbv zeta.
    destruct (pyinstaller_run h fixed_args (env w)) as [[[]|x|c] e'];
      cbn [fst snd env trace];
      (split; [reflexivity|]; split; [reflexivity|]; split).
    + intros x Hx. discriminate Hx.
    + intros c Hc. discriminate Hc.
    + intros y [= <-]. eexists. cbn [prints map]. reflexivity.
    + intros c Hc. discriminate Hc.
    + intros y Hy. discriminate Hy.
    + intros d [= <-].
      exists (trace w ++ EImport (lit "PyInstaller.__main__")
                :: prints h (build_prelude h)).
      rewrite <- app_assoc. reflexivity.
Qed.

Lemma build_executable_outcomes_witness :
  fst (build_executable exiting_tool_host fresh_checkout) = Exit 2 /\
  fst (build_executable busy_host locked_world) = Ret false.
Proof.
  split.
  - destruct (@build_executable_outcomes exiting_tool_host fresh_checkout)
      as (_ & Hrun).
    + intros c Hc. unfold is_ascii in Hc. cbn.
      apply N.ltb_lt in Hc. apply N.ltb_lt. lia.
    + destruct Hrun as (_ & -> & _); [vm_compute; discriminate|].
      reflexivity.
  - vm_compute. reflexivity.
Defined.

(* ===================================================================== *)
(** ** The dependency checker in general *)
(* ===================================================================== *)

Lemma check_dependencies_run (h : Host) (w : World) :
  stdout_ascii h ->
  check_dependencies h w =
    (Ret (dependency_verdict h (env w)),
     mkWorld (after_dependency_check h (env w))
             (trace w ++ dependency_events h (env w))).
Proof.
  intros Ha. unfold check_dependencies. run_prints Ha.
  unfold dependency_verdict, after_dependency_check, dependency_events,
    h5py_events, after_h5py_check.
  unfold bind at 1. unfold try_except at 1.
  unfold import_module at 1. run_prints Ha.
  change (top_package (lit "h5py")) with (lit "h5py").
  destruct (assoc (lit "h5py") (modules (env w))) as [v1|].
  - run_prints Ha. unfold pyinstaller_events.
    unfold try_except at 1. unfold import_module at 1. run_prints Ha.
    change (top_package (lit "PyInstaller")) with (lit "PyInstaller").
    destruct (assoc (lit "PyInstaller") (modules (env w))) as [v2|] eqn:E2.
    + run_prints Ha. rewrite E2. unfold ret. flatten_trace. reflexivity.
    + unfold raise at 1. unfold bind at 1. cbn [kind is_import_error].
      run_prints Ha. unfold bind at 1. rewrite system_run. cbn [env trace].
      destruct (os_system h (pip_install h "pyinstaller") (env w))
        as [st e2].
      cbv beta iota. cbn [snd]. unfold try_except, import_module.
      run_prints Ha.
      change (top_package (lit "PyInstaller")) with (lit "PyInstaller").
      destruct (assoc (lit "PyInstaller") (modules e2)) as [v3|].
      * run_prints Ha. unfold ret. flatten_trace. reflexivity.
      * unfold raise at 1. unfold bind at 1. cbn [kind is_import_error].
        run_prints Ha. unfold ret. flatten_trace. reflexivity.
  - unfold raise at 1. unfold bind at 1. cbn [kind is_import_error].
    run_prints Ha.
    unfold bind at 1. rewrite system_run. cbn [env trace].
    destruct (os_system h (pip_install h "h5py") (env w)) as [st1 e1].
    cbv beta iota. cbn [snd]. run_prints Ha. unfold ret at 1. cbv beta iota.
    unfold pyinstaller_events.
    unfold try_except at 1. unfold import_module at 1. run_prints Ha.
    change (top_package (lit "PyInstaller")) with (lit "PyInstaller").
    destruct (assoc (lit "PyInstaller") (modules e1)) as [v2|] eqn:E2.
    + run_prints Ha. rewrite E2. unfold ret. flatten_trace. reflexivity.
    + unfold raise at 1. unfold bind at 1. cbn [kind is_import_error].
      run_prints Ha. unfold bind at 1. rewrite system_run. cbn [env trace].
      destruct (os_system h (pip_install h "pyinstaller") e1) as [st e2].
      cbv beta iota. cbn [snd]. unfold try_except, import_module.
      run_prints Ha.
      change (top_package (lit "PyInstaller")) with (lit "PyInstaller").
      destruct (assoc (lit "PyInstaller") (modules e2)) as [v3|].
      * run_prints Ha. unfold ret. flatten_trace. reflexivity.
      * unfold raise at 1. unfold bind at 1. cbn [kind is_import_error].
        run_prints Ha. unfold ret. flatten_trace. reflexivity.
Qed.





(* ===================================================================== *)
(** ** How [main] ends *)
(* ===================================================================== *)

Lemma main_after_failed_deps (h : Host) (w w2 : World) :
  host_ok h ->
  lookup entry_point (fs (env w)) <> None ->
  check_dependencies h (mkWorld (env w) (trace w ++ prints h (banner h)))
  = (Ret false, w2) ->
  main h w =
    (Exit 1,
     logw (EPrint (rendered h
             (nl ++ lit "[X] Cannot proceed without required dependencies")))
          w2).
Proof.
  intros Hok Hentry Hdeps. unfold main.
  rewrite main_banner by exact Hok. destruct Hok as [Ha _].
  unfold path_exists. run_prints Ha. cbn [env].
  destruct (lookup entry_point (fs (env w))); [|contradiction].
  cbn [negb]. run_prints Ha.
  rewrite (@bind_returns _ _ _ _ _ _ _ Hdeps). cbn [negb]. run_prints Ha.
  reflexivity.
Qed.

Lemma prints_no_build_step (h : Host) (lines : list pystr) :
  existsb is_build_step (prints h lines) = false.
Proof. induction lines as [|l lines IH]; [reflexivity | exact IH]. Qed.

Lemma dependency_events_no_build_step (h : Host) (e : Env) :
  existsb is_build_step (dependency_events h e) = false.
Proof.
  unfold dependency_events, h5py_events, pyinstaller_events.
  destruct (assoc (lit "h5py") (modules e));
    destruct (assoc (lit "PyInstaller") (modules (after_h5py_check h e)));
    reflexivity.
Qed.

(** X4.  The dependency gate of [main].  With the entry point present and
    PyInstaller still not importable after pip, [main] prints
    [[X] Cannot proceed without required dependencies] and ends with
    [sys.exit(1)]: the process status is 1, the environment is the one the
    dependency checker left, and no [rmtree], no [unlink], no sleep and no
    PyInstaller call has taken place. *)
Theorem main_dependency_gate (h : Host) (w : World) :
  host_ok h ->
  lookup entry_point (fs (env w)) <> None ->
  dependency_verdict h (env w) = false ->
  exists evs,
    main h w
    = (Exit 1, mkWorld (after_dependency_check h (env w)) (trace w ++ evs)) /\
    existsb is_build_step evs = false /\
    last evs ESleep
    = EPrint (rendered h
        (nl ++ lit "[X] Cannot proceed without required dependencies")) /\
    fst (run_script h w) = 1%Z.
Proof.
  intros Hok Hentry Hverdict. pose proof Hok as [Ha _].
  pose proof (@check_dependencies_run h
                (mkWorld (env w) (trace w ++ prints h (banner h))) Ha)
    as Hdeps.
  cbn [env trace] in Hdeps. rewrite Hverdict in Hdeps.
  pose proof (@main_after_failed_deps h w _ Hok Hentry Hdeps) as Hmain.
  exists (prints h (banner h) ++ dependency_events h (env w)
          ++ [EPrint (rendered h
                (nl ++ lit "[X] Cannot proceed without required dependencies"))]).
  split; [|split; [|split]].
  - rewrite Hmain. unfold logw. cbn [env trace].
    rewrite <- !app_assoc. reflexivity.
  - rewrite !existsb_app, prints_no_build_step,
      dependency_events_no_build_step. reflexivity.
  - rewrite !app_assoc. apply last_last.
  - unfold run_script. rewrite Hmain. reflexivity.
Qed.

Lemma main_dependency_gate_witness :
  fst (main offline_host bare_checkout) = Exit 1 /\
  fs (env (snd (main offline_host bare_checkout))) = [source_file].
Proof.
  assert (Hok : host_ok offline_host).
  { split; [|discriminate]. intros c Hc. unfold is_ascii in Hc. cbn.
    apply N.ltb_lt in Hc. apply N.ltb_lt. lia. }
  destruct (@main_dependency_gate offline_host bare_checkout Hok)
    as (evs & -> & _).
  - vm_compute. discriminate.
  - vm_compute. reflexivity.
  - split; vm_compute; reflexivity.
Defined.




(* ===================================================================== *)
(** ** What [rmtree] leaves behind *)
(* ===================================================================== *)
















(* ===================================================================== *)
(** ** The pattern [*.spec] *)
(* ===================================================================== *)

Lemma fnmatch_plain (pat : pystr) :
  plain pat = true -> forall name, fnmatch pat name = str_eqb pat name.
Proof.
  induction pat as [|c pat IH]; intros Hp name.
  - destruct name; reflexivity.
  - cbn [plain forallb] in Hp. apply andb_true_iff in Hp as [Hc Hp].
    apply andb_true_iff in Hc as [H42 H63].
    apply negb_true_iff in H42. apply negb_true_iff in H63.
    cbn [fnmatch]. rewrite H42.
    destruct name as [|d name]; [reflexivity|].
    rewrite H63. cbn [orb str_eqb]. rewrite (IH Hp). reflexivity.
Qed.

Lemma fnmatch_star_nil (pat : pystr) :
  fnmatch (42%N :: pat) [] = fnmatch pat [].
Proof. cbn. apply orb_false_r. Qed.

Lemma fnmatch_star_cons (pat : pystr) (d : N) (name : pystr) :
  fnmatch (42%N :: pat) (d :: name)
  = fnmatch pat (d :: name) || fnmatch (42%N :: pat) name.
Proof. reflexivity. Qed.

Lemma fnmatch_star (pat name : pystr) :
  fnmatch (42%N :: pat) name = true <->
  exists pre suf, name = pre ++ suf /\ fnmatch pat suf = true.
Proof.
  induction name as [|d name IH].
  - rewrite fnmatch_star_nil. split.
    + intros H. exists [], []. split; [reflexivity | exact H].
    + intros (pre & suf & Hn & Hm). symmetry in Hn.
      apply app_eq_nil in Hn as [_ ->]. exact Hm.
  - rewrite fnmatch_star_cons, orb_true_iff, IH. split.
    + intros [Hm|(pre & suf & -> & Hm)].
      * exists [], (d :: name). split; [reflexivity | exact Hm].
      * exists (d :: pre), suf. split; [reflexivity | exact Hm].
    + intros (pre & suf & Hn & Hm). destruct pre as [|c pre].
      * cbn [app] in Hn. subst suf. left. exact Hm.
      * cbn [app] in Hn. injection Hn as -> ->. right.
        exists pre, suf. split; [reflexivity | exact Hm].
Qed.

(** X8.  The one pattern of [files_to_clean] matches exactly the names that
    end in [.spec] (compared case-sensitively, as on a POSIX host), the bare
    name [.spec] included and names such as [a.spec.bak] excluded; so the
    cleaner's [glob] yields exactly the entries of the working directory,
    files or directories, whose name ends in [.spec]. *)
Theorem spec_pattern_is_suffix :
  (forall name,
     fnmatch (lit "*.spec") name = true <->
     exists stem, name = stem ++ lit ".spec") /\
  (forall es f,
     In f (glob (lit "*.spec") es) <->
     In f (map fst es) /\ exists stem, f = stem ++ lit ".spec") /\
  List.concat (map (fun p => glob p [(lit ".spec", File Writable 0);
                                     (lit "a.spec.bak", File Writable 0);
                                     (lit "x.spec", Dir Writable [])])
                   files_to_clean)
  = [lit ".spec"; lit "x.spec"].
Proof.
  assert (Hname : forall name,
             fnmatch (lit "*.spec") name = true <->
             exists stem, name = stem ++ lit ".spec").
  { intros name. change (lit "*.spec") with (42%N :: lit ".spec").
    rewrite fnmatch_star. split.
    - intros (pre & suf & -> & Hm).
      rewrite fnmatch_plain in Hm by reflexivity.
      apply str_eqb_eq in Hm. subst suf. exists pre. reflexivity.
    - intros (stem & ->). exists stem, (lit ".spec").
      split; [reflexivity|]. rewrite fnmatch_plain by reflexivity.
      apply str_eqb_refl. }
  split; [exact Hname|]. split; [|reflexivity].
  intros es f. unfold glob. rewrite filter_In, Hname. tauto.
Qed.

(* ===================================================================== *)
(** ** The size that is reported *)
(* ===================================================================== *)


(* ===================================================================== *)
(** ** What becomes of the spec files, and cleaning twice *)
(* ===================================================================== *)


























(* ===================================================================== *)
(** ** The order of the stages *)
(* ===================================================================== *)

(** [main] past its two gates, in full: the trace is the banner, then the
    events of the dependency checker, of the cleaner and of the build, and
    what follows depends on how PyInstaller ended. *)
Lemma main_past_gates (h : Host) (w : World) :
  host_ok h ->
  lookup entry_point (fs (env w)) <> None ->
  dependency_verdict h (env w) = true ->
  main h w =
    let e2 := build_start_env h (env w) in
    let e3 := snd (pyinstaller_run h fixed_args e2) in
    let upto :=
      trace w ++ prints h (banner h) ++ dependency_events h (env w)
        ++ clean_events h (fs (after_dependency_check h (env w)))
        ++ build_events h e2 in
    match fst (pyinstaller_run h fixed_args e2) with
    | Ret _ =>
        (Ret 0%Z,
         mkWorld (after_test h e3)
           (upto ++ test_events h e3
              ++ prints h (summary_lines h (exe_node h (after_test h e3)))))
    | Raise _ =>
        (Exit 1,
         mkWorld e3
           (upto ++ [EPrint (rendered h (nl ++ lit "[X] Build failed"))]))
    | Exit c => (Exit c, mkWorld e3 upto)
    end.
Proof.
  intros Hok Hentry Hv. pose proof Hok as [Ha _].
  pose proof (@check_dependencies_run h
                (mkWorld (env w) (trace w ++ prints h (banner h))) Ha)
    as Hdeps.
  cbn [env trace] in Hdeps. rewrite Hv in Hdeps.
  rewrite (@main_after_gates h w _ Hok Hentry Hdeps).
  rewrite clean_build_dirs_returns by exact Ha.
  cbn [snd env fs modules trace].
  unfold dependency_verdict in Hv.
  destruct (assoc (lit "PyInstaller")
              (modules (after_dependency_check h (env w))))
    as [v|] eqn:Ep; [|discriminate Hv].
  erewrite build_executable_run; [|exact Ha|cbn [env modules]; exact Ep].
  cbv zeta. cbn [env trace]. unfold build_events.
  fold (build_start_env h (env w)).
  destruct (pyinstaller_run h fixed_args (build_start_env h (env w)))
    as [[[]|x|c] e3]; cbn [fst snd].
  - match goal with
    | |- context [test_executable h ?W] =>
        rewrite (@test_executable_run h W Ha)
    end.
    cbn [env trace]. unfold after_test, test_events, exe_node.
    destruct (lookup2 (lit "dist") (exe_file h) (fs e3)) as [n|].
    + destruct (os_system h (help_command h) e3) as [status e4].
      cbn [fst snd]. rewrite print_summary_lines by exact Ha.
      cbn [snd env trace]. unfold exe_node.
      f_equal. f_equal. rewrite <- !app_assoc. cbn [app].
      rewrite <- !app_assoc. reflexivity.
    + cbn [snd]. rewrite print_summary_lines by exact Ha.
      cbn [snd env trace]. unfold exe_node.
      f_equal. f_equal. rewrite <- !app_assoc. cbn [app].
      rewrite <- !app_assoc. reflexivity.
  - unfold logw. cbn [env trace].
    f_equal. f_equal. rewrite <- !app_assoc. cbn [app].
    rewrite <- !app_assoc. reflexivity.
  - f_equal. f_equal. rewrite <- !app_assoc. cbn [app]. reflexivity.
Qed.


Lemma forallb_filter_nil {A} (P Q : A -> bool) (l : list A) :
  (forall a, P a = true -> Q a = false) ->
  forallb P l = true -> filter Q l = [].
Proof.
  intros HPQ. induction l as [|a l IH]; [reflexivity|].
  cbn [forallb filter]. intros H. apply andb_true_iff in H as [Ha Hl].
  rewrite (HPQ a Ha). apply IH. exact Hl.
Qed.

Lemma clean_files_events_steps (h : Host) (files : list pystr) (es : dirents) :
  forallb (fun e => is_print e || is_clean_step e)
    (clean_files_events h files es) = true.
Proof.
  revert es. induction files as [|f files IH]; intros es; [reflexivity|].
  cbn [clean_files_events unlink_events app forallb is_print is_clean_step orb
       andb].
  apply IH.
Qed.

Lemma clean_events_steps (h : Host) (es : dirents) :
  forallb (fun e => is_print e || is_clean_step e) (clean_events h es) = true.
Proof.
  unfold clean_events. cbn [forallb is_print orb andb].
  rewrite !forallb_app, clean_files_events_steps.
  unfold clean_dir_events.
  destruct (lookup (lit "build") es);
    destruct (lookup (lit "dist") (clean_dir_fs (lit "build") es));
    reflexivity.
Qed.

Lemma dependency_events_kinds (h : Host) (e : Env) :
  forallb (fun ev => is_print ev || is_import ev || is_system ev)
    (dependency_events h e) = true.
Proof.
  unfold dependency_events, h5py_events, pyinstaller_events.
  destruct (assoc (lit "h5py") (modules e));
    destruct (assoc (lit "PyInstaller") (modules (after_h5py_check h e)));
    reflexivity.
Qed.

Lemma filter_prints (h : Host) (Q : event -> bool) (lines : list pystr) :
  (forall l, Q (EPrint l) = false) -> filter Q (prints h lines) = [].
Proof.
  intros HQ. induction lines as [|l lines IH]; [reflexivity|].
  cbn [prints map filter]. rewrite HQ. exact IH.
Qed.

Lemma clean_events_no_system (h : Host) (es : dirents) :
  filter is_system (clean_events h es) = [].
Proof.
  apply forallb_filter_nil
    with (P := fun e => is_print e || is_clean_step e);
    [|apply clean_events_steps].
  intros [] H; try reflexivity; discriminate H.
Qed.

Lemma clean_events_no_tool_call (h : Host) (es : dirents) :
  filter is_tool_call (clean_events h es) = [].
Proof.
  apply forallb_filter_nil
    with (P := fun e => is_print e || is_clean_step e);
    [|apply clean_events_steps].
  intros [] H; try reflexivity; discriminate H.
Qed.

Lemma dependency_events_no_tool_call (h : Host) (e : Env) :
  filter is_tool_call (dependency_events h e) = [].
Proof.
  apply forallb_filter_nil
    with (P := fun ev => is_print ev || is_import ev || is_system ev);
    [|apply dependency_events_kinds].
  intros [] H; try reflexivity; discriminate H.
Qed.

(** X12.  The build gate of [main].  With the entry point present and
    PyInstaller importable after the dependency check, an exception raised
    by PyInstaller is caught: [main] prints the rule, [[X] Build failed:]
    with the message, then [[X] Build failed], and ends with [sys.exit(1)].
    PyInstaller was called once, with the fixed arguments, in the directory
    the cleaner left; the smoke test and the summary did not run: the only
    shell commands of the whole run are those of the dependency checker,
    and the environment is the one PyInstaller left. *)
Theorem main_build_gate (h : Host) (w : World) (x : exn) :
  host_ok h ->
  lookup entry_point (fs (env w)) <> None ->
  dependency_verdict h (env w) = true ->
  fst (pyinstaller_run h fixed_args (build_start_env h (env w))) = Raise x ->
  exists before,
    main h w =
      (Exit 1,
       mkWorld (snd (pyinstaller_run h fixed_args (build_start_env h (env w))))
         (trace w ++ before
            ++ EPyInstaller fixed_args
            :: prints h [ nl ++ rule "=";
                          lit "[X] Build failed: " ++ message x;
                          nl ++ lit "[X] Build failed" ])) /\
    filter is_tool_call before = [] /\
    filter is_system before = filter is_system (dependency_events h (env w)) /\
    fst (run_script h w) = 1%Z.
Proof.
  intros Hok Hentry Hv Hx.
  pose proof (@main_past_gates h w Hok Hentry Hv) as Hmain.
  cbv zeta in Hmain. unfold build_events in Hmain. rewrite Hx in Hmain.
  exists (prints h (banner h) ++ dependency_events h (env w)
          ++ clean_events h (fs (after_dependency_check h (env w)))
          ++ EImport (lit "PyInstaller.__main__")
          :: prints h (build_prelude h)).
  split; [|split; [|split]].
  - rewrite Hmain. f_equal. f_equal. rewrite <- !app_assoc. cbn [app].
    rewrite <- !app_assoc. reflexivity.
  - rewrite !filter_app. cbn [filter is_tool_call].
    rewrite !filter_prints by reflexivity.
    rewrite dependency_events_no_tool_call, clean_events_no_tool_call.
    reflexivity.
  - rewrite !filter_app. cbn [filter is_system].
    rewrite !filter_prints by reflexivity.
    rewrite clean_events_no_system. cbn [app]. apply app_nil_r.
  - unfold run_script. rewrite Hmain. reflexivity.
Qed.

Lemma main_build_gate_witness :
  fst (run_script busy_host locked_world) = 1%Z /\
  lookup (lit "dist") (fs (env (snd (main busy_host locked_world)))) = None.
Proof.
  destruct (@main_build_gate busy_host locked_world
              (mkExn OSError
                 (lit "[WinError 32] The process cannot access the file because it is being used by another process"))
              busy_host_ok)
    as (before & Hmain & _ & _ & Hstatus).
  - vm_compute. discriminate.
  - vm_compute. reflexivity.
  - vm_compute. reflexivity.
  - split; [exact Hstatus|]. rewrite Hmain. vm_compute. reflexivity.
Defined.


